(** * VTU internship watcher: the poll / normalize / deduplicate / notify pipeline

    A shallow embedding of [internship_watcher.py] (class [InternshipWatcher])
    and the properties of its fetch loop, record normalizer, change detector
    and notification dispatcher.

    Conventions of the embedding.
    - A Python [str] is the list of its Unicode code points ([pystr]).
    - A decoded JSON value is a [json]; JSON numbers are integers here (the
      numeric fields the watcher reads are [id], [stipend], [internship_fee],
      [is_job_offer] and [last_page]).
    - A Python exception is the [Raises] case of [outcome]; a [try/except
      Exception] block is a [match] on it.
    - Everything outside the process (upstream API, clock, subscriber sheet,
      SMTP server) is a field of [world]; what the process does to the outside
      is recorded as a list of [event]s. *)

From Stdlib Require Import ZArith String Ascii List Lia DecimalString DecimalZ.
From stdpp Require Import base option list gmap sets.

Set Warnings "-clear-no-such-hyp".
Set Default Proof Using "Type".

Local Open Scope Z_scope.
Local Open Scope list_scope.

(** ** Python strings *)

Abbreviation pystr := (list N).

(** An ASCII literal of the source as a [pystr]. *)
Definition lit (s : string) : pystr := N_of_ascii <$> list_ascii_of_string s.

(** [str.isspace] for one character: the code points Python treats as
    whitespace. *)
Definition isspace (c : N) : bool :=
  ((9 <=? c) && (c <=? 13) || (28 <=? c) && (c <=? 32) ||
   (c =? 133) || (c =? 160) || (c =? 5760) ||
   (8192 <=? c) && (c <=? 8202) ||
   (c =? 8232) || (c =? 8233) || (c =? 8239) || (c =? 8287) ||
   (c =? 12288))%N.

Fixpoint lstrip (s : pystr) : pystr :=
  match s with
  | c :: r => if isspace c then lstrip r else s
  | [] => []
  end.

Definition rstrip (s : pystr) : pystr := rev (lstrip (rev s)).

(** [s.strip()] *)
Definition strip (s : pystr) : pystr := rstrip (lstrip s).

(** [str(n)] for an integer. *)
Definition str_int (z : Z) : pystr := lit (NilEmpty.string_of_int (Z.to_int z)).

(** ** Decoded JSON values and the Python operations the watcher applies *)

#[warnings="-register-all"]
Inductive json :=
| JNull
| JBool (b : bool)
| JInt (z : Z)
| JStr (s : pystr)
| JList (l : list json)
| JDict (kvs : list (pystr * json)).

(** Truth value of a Python object ([bool(v)], [if v], [v or w]). *)
Definition truthy (v : json) : bool :=
  match v with
  | JNull => false
  | JBool b => b
  | JInt z => negb (z =? 0)
  | JStr s => negb (bool_decide (s = []))
  | JList l => negb (bool_decide (l = []))
  | JDict kvs => negb (bool_decide (kvs = []))
  end.

(** [a or b] *)
Definition py_or (a b : json) : json := if truthy a then a else b.

(** Lookup in a dict given by its items. *)
Fixpoint dict_lookup (kvs : list (pystr * json)) (k : pystr) : option json :=
  match kvs with
  | [] => None
  | (k', v) :: r => if bool_decide (k' = k) then Some v else dict_lookup r k
  end.

(** [d.get(k, dflt)] *)
Definition dict_get (kvs : list (pystr * json)) (k : pystr) (dflt : json) : json :=
  default dflt (dict_lookup kvs k).

(** ** Exceptions *)

Inductive outcome (A : Type) :=
| Returns (a : A)
| Raises.
Arguments Returns {A} a.
Arguments Raises {A}.

Definition obind {A B} (m : outcome A) (f : A -> outcome B) : outcome B :=
  match m with
  | Returns a => f a
  | Raises => Raises
  end.

Notation "'do' x <- m ; k" := (obind m (fun x => k))
  (at level 10, x name, m at level 100, k at level 200).

(** [v.get(k)] on an arbitrary object: only a dict has [get]. *)
Definition py_get (v : json) (k : pystr) (dflt : json) : outcome json :=
  match v with
  | JDict kvs => Returns (dict_get kvs k dflt)
  | _ => Raises
  end.

(** [v.strip()] on an arbitrary object: only a str has [strip]. *)
Definition py_strip (v : json) : outcome pystr :=
  match v with
  | JStr s => Returns (strip s)
  | _ => Raises
  end.

(** [(d.get(k) or '').strip()] *)
Definition text_field (d : json) (k : pystr) : outcome pystr :=
  do v <- py_get d k JNull;
  py_strip (py_or v (JStr [])).

(** ** The normalized listing *)

Module Listing.
Record t := mk {
  id : pystr;
  title : pystr;
  company : pystr;
  location : pystr;
  description : pystr;
  work_mode : pystr;
  duration : pystr;
  deadline : pystr;
  type : pystr;
  stipend : pystr;
  job_offer : bool;
  job_package : pystr;
  link : pystr;
  scraped_at : pystr
}.
End Listing.

Definition website_base_url : pystr := lit "https://vtu.internyet.in/internships".

(** The prefix of the stipend display, as the source file has it: the three
    characters U+201A U+00C7 U+03C0. *)
Definition currency_prefix : pystr := [8218; 199; 960]%N.

(** ** Effects: the outside world and what the process does to it *)

(** What one GET of the listing API yields: [requests] raises (connection,
    timeout, non-2xx status), the body is not JSON, or a decoded body. *)
Inductive response :=
| RequestError
| DecodeError
| Reply (body : json).

Record message := {
  msg_from : pystr;
  msg_to : pystr;
  msg_subject : pystr;
  msg_body : pystr
}.

(** The content of [seen_internships.json] as [save_seen_internships] writes
    it. *)
Record seen_file := {
  file_seen : list pystr;
  last_updated : pystr
}.

Record world := {
  (** the answer of the API to the request for page [p] *)
  upstream : nat -> response;
  (** the [n]-th reading of [datetime.now().isoformat()] in the run *)
  clock : nat -> pystr;
  (** the stripped cells of the [email] column of the subscriber sheet; empty
      when the sheet URL is unset, the request fails or the header is missing *)
  sheet_emails : list pystr;
  (** whether the [n]-th SMTP session of the run delivers the message *)
  smtp_ok : nat -> message -> bool
}.

Inductive event :=
| EvFetch (page : nat)
| EvSleep
| EvMailSent (m : message)
| EvMailError (m : message)
| EvNotifyFailed (email : pystr)
| EvReport (sent total : nat)
| EvSave (f : seen_file).

(** ** The subscriber sheet in full *)

Section Sheet.

(** [s.split(sep)] for a one-character separator: the pieces between the
    separators, at least one. *)
Fixpoint split (sep : N) (s : pystr) : list pystr :=
  match s with
  | [] => [[]]
  | c :: r =>
      if (c =? sep)%N then [] :: split sep r
      else match split sep r with
           | piece :: pieces => (c :: piece) :: pieces
           | [] => [[c]]
           end
  end.

(** The characters at which [str.splitlines] breaks a text. *)
Definition is_linebreak (c : N) : bool :=
  ((10 <=? c) && (c <=? 13) || (28 <=? c) && (c <=? 30) ||
   (c =? 133) || (c =? 8232) || (c =? 8233))%N.

(** [s.splitlines()]: the lines without their ends, a carriage return
    followed by a line feed being one end; [skip_lf] says that the character
    before was a carriage return. *)
Fixpoint lines_of (skip_lf : bool) (s : pystr) : list pystr :=
  match s with
  | [] => []
  | c :: r =>
      if skip_lf && (c =? 10)%N then lines_of false r
      else if is_linebreak c then [] :: lines_of (c =? 13)%N r
      else match lines_of false r with
           | line :: lines => (c :: line) :: lines
           | [] => [[c]]
           end
  end.

Definition splitlines (s : pystr) : list pystr := lines_of false s.

(** [l.index(x)] when [x in l]. *)
Fixpoint index_of (x : pystr) (l : list pystr) : option nat :=
  match l with
  | [] => None
  | y :: r => if bool_decide (y = x) then Some 0%nat else S <$> index_of x r
  end.

(** [str.lower] is left abstract. *)
Variable lower : pystr -> pystr.

(** The header cells of the sheet as [get_subscribers] compares them. *)
Definition sheet_headers (header : pystr) : list pystr :=
  (fun h => lower (strip h)) <$> split 44 header.

(** Lines 253-265 of [get_subscribers]: the cells [parts[email_idx]] of the
    rows that are long enough, for the text of the sheet. *)
Definition email_cells (text : pystr) : list pystr :=
  match splitlines text with
  | [] => []
  | header :: rows =>
      match index_of (lit "email") (sheet_headers header) with
      | None => []
      | Some email_idx =>
          omap (fun line => (strip <$> split 44 line) !! email_idx) rows
      end
  end.

(** [get_subscribers] for the text of the sheet; [None] when the address of
    the sheet is unset or the request fails. *)
Definition subscribers_of_sheet (sheet : option pystr) : list pystr :=
  match sheet with
  | None => []
  | Some text =>
      filter (fun email => email ≠ [] ∧ (64%N : N) ∈ email) (email_cells text)
  end.

End Sheet.

(** Lower case for the letters A to Z. *)
Definition ascii_lower (s : pystr) : pystr :=
  (fun c => if ((65 <=? c) && (c <=? 90))%N then (c + 32)%N else c) <$> s.

(** A sheet whose header names no email column. *)
Definition nameless_sheet : pystr :=
  lit "name,mail" ++ [10]%N ++ lit "Alice,alice@example.org" ++ [10]%N.

(** A sheet with a padded header, a short row, an empty line, a row without
    an at sign and two addresses. *)
Definition sample_sheet : pystr :=
  lit "created_at_iso, Email " ++ [13; 10]%N
  ++ lit "2025-01-01 , alice@example.org " ++ [10]%N
  ++ lit "2025-01-02" ++ [10]%N
  ++ [10]%N
  ++ lit "2025-01-03,nobody" ++ [10]%N
  ++ lit "2025-01-04,carol@example.org,x" ++ [10]%N.

Section Watcher.

(** [str(v)] of a list or a dict is its [repr]; the text is not needed by
    any property below and is left abstract. *)
Variable py_repr : json -> pystr.

(** The fixed markup of the notification page: the template text before and
    after [$header_html], the [<div>] block of one listing given its CSS
    class, and the footer. *)
Variable page_head page_tail page_footer : pystr.
Variable listing_section : pystr -> Listing.t -> pystr.

(** [str(v)], also what an f-string field [{v}] expands to. *)
Definition py_str (v : json) : pystr :=
  match v with
  | JNull => lit "None"
  | JBool true => lit "True"
  | JBool false => lit "False"
  | JInt z => str_int z
  | JStr s => s
  | JList _ | JDict _ => py_repr v
  end.

(** Lines 177-184: the stipend display from the amount and the type. *)
Definition stipend_display (stipend : json) (internship_type : pystr) : pystr :=
  let stipend_info := if truthy stipend then currency_prefix ++ py_str stipend else [] in
  if bool_decide (internship_type = lit "Paid") && bool_decide (stipend_info = []) then lit "Paid"
  else if bool_decide (internship_type = lit "Free") then lit "Free"
  else stipend_info.

(** The body of the [try] block of [process_internship_data]; [now] is the
    value of [datetime.now().isoformat()] when the record is built. *)
Definition process_internship_body (now : pystr) (data : json)
  : outcome (option Listing.t) :=
  do id_field <- py_get data (lit "id") (JStr []);
  let internship_id := py_str id_field in
  do title <- text_field data (lit "title");
  do company_raw <- py_get data (lit "company") JNull;
  let company_dict := py_or company_raw (JDict []) in
  do company_name <- text_field company_dict (lit "name");
  do city_raw <- py_get data (lit "city") JNull;
  let city_dict := py_or city_raw (JDict []) in
  do city_name <- text_field city_dict (lit "name");
  do description <- text_field data (lit "description");
  do work_mode <- text_field data (lit "workMode");
  do duration <- text_field data (lit "duration");
  do deadline <- text_field data (lit "deadline");
  do internship_type <- text_field data (lit "type");
  do stipend_a <- py_get data (lit "stipend") JNull;
  do stipend_b <- py_get data (lit "internship_fee") JNull;
  let stipend := py_or stipend_a stipend_b in
  do job_offer <- py_get data (lit "is_job_offer") (JInt 0);
  do job_package <- text_field data (lit "job_offer_package");
  do slug_raw <- py_get data (lit "slug") JNull;
  let slug := py_or slug_raw (JStr []) in
  let link :=
    if truthy slug then website_base_url ++ lit "/" ++ py_str slug
    else website_base_url in
  let stipend_info := stipend_display stipend internship_type in
  let processed :=
    {| Listing.id := internship_id;
       Listing.title := title;
       Listing.company := company_name;
       Listing.location := city_name;
       Listing.description :=
         if bool_decide (description = []) then [] else take 500 description;
       Listing.work_mode := work_mode;
       Listing.duration :=
         if bool_decide (duration = []) then [] else duration ++ lit " months";
       Listing.deadline := deadline;
       Listing.type := internship_type;
       Listing.stipend := stipend_info;
       Listing.job_offer := truthy job_offer;
       Listing.job_package := job_package;
       Listing.link := link;
       Listing.scraped_at := now |} in
  if negb (bool_decide (title = [])) && negb (bool_decide (company_name = []))
  then Returns (Some processed)
  else Returns None.

(** [process_internship_data]: an exception anywhere in the body is logged
    and the item is dropped. *)
Definition process_internship_data (now : pystr) (data : json) : option Listing.t :=
  match process_internship_body now data with
  | Returns r => r
  | Raises => None
  end.


(** *** Fetching *)

(** [fetch_internships_from_api]: every failure becomes the empty dict. *)
Definition fetch_internships_from_api (w : world) (page : nat) : json :=
  match upstream w page with
  | RequestError => JDict []
  | DecodeError => JDict []
  | Reply data =>
      match py_get data (lit "success") JNull with
      | Raises => JDict []
      | Returns success =>
          if negb (truthy success) then JDict []
          else match py_get data (lit "data") (JDict []) with
               | Raises => JDict []
               | Returns d => d
               end
      end
  end.

(** What [for x in v] iterates over. *)
Definition py_iter (v : json) : outcome (list json) :=
  match v with
  | JList l => Returns l
  | JDict kvs => Returns (JStr <$> kvs.*1)
  | JStr s => Returns ((fun c => JStr [c]) <$> s)
  | _ => Raises
  end.

(** Lines 120-127 and the head of the [for] loop: the items of the page, or
    [None] when the loop is left before any item is processed.  A payload
    that is not a dict leaves the loop too: a falsy one by [not api_data],
    any other one by the [TypeError] of ['data' not in api_data] or of
    [api_data['data']]. *)
Definition page_items (api_data : json) : option (list json) :=
  match api_data with
  | JDict kvs =>
      if negb (truthy api_data) then None
      else match dict_lookup kvs (lit "data") with
           | None => None
           | Some internships =>
               if negb (truthy internships) then None
               else match py_iter internships with
                    | Raises => None
                    | Returns items => Some items
                    end
           end
  | _ => None
  end.

(** [page >= v] for an object [v]. *)
Definition py_ge (page : nat) (v : json) : outcome bool :=
  match v with
  | JInt z => Returns (z <=? Z.of_nat page)
  | JBool b => Returns ((if b then 1 else 0) <=? Z.of_nat page)
  | _ => Raises
  end.

(** Line 138, with the [except] of the loop body: is the loop left after
    this page? *)
Definition reached_last (page : nat) (api_data : json) : bool :=
  match py_get api_data (lit "last_page") (JInt 1) with
  | Raises => true
  | Returns v =>
      match py_ge page v with
      | Raises => true
      | Returns b => b
      end
  end.

(** One call of [process_internship_data] in the run: the clock is read when
    the record is built, that is when nothing was raised before. *)
Definition process_item (w : world) (ticks : nat) (data : json)
  : option Listing.t * nat :=
  match process_internship_body (clock w ticks) data with
  | Returns r => (r, S ticks)
  | Raises => (None, ticks)
  end.

(** The [for] loop of lines 130-133. *)
Fixpoint process_items (w : world) (ticks : nat) (items : list json)
  : list Listing.t * nat :=
  match items with
  | [] => ([], ticks)
  | data :: rest =>
      let '(r, ticks1) := process_item w ticks data in
      let '(found, ticks2) := process_items w ticks1 rest in
      (match r with Some l => l :: found | None => found end, ticks2)
  end.

(** [get_all_internships]: the [while True] loop, bounded by [fuel]
    iterations; [None] when the bound is reached before a [break]. *)
Fixpoint get_all_loop (w : world) (fuel page ticks : nat) (all_internships : list Listing.t)
  : option (list Listing.t * nat * list event) :=
  match fuel with
  | O => None
  | S fuel' =>
      let api_data := fetch_internships_from_api w page in
      match page_items api_data with
      | None => Some (all_internships, ticks, [EvFetch page])
      | Some items =>
          let '(found, ticks1) := process_items w ticks items in
          if reached_last page api_data
          then Some (all_internships ++ found, ticks1, [EvFetch page])
          else
            match get_all_loop w fuel' (S page) ticks1 (all_internships ++ found) with
            | None => None
            | Some (res, ticks2, tr) => Some (res, ticks2, EvFetch page :: EvSleep :: tr)
            end
      end
  end.

Definition get_all_internships (w : world) (fuel ticks : nat)
  : option (list Listing.t * nat * list event) :=
  get_all_loop w fuel 1%nat ticks [].

(** *** The seen-state store *)

(** The data file: [None] when it does not exist or cannot be read as
    JSON.  A file that exists was written by [save_seen_internships]. *)
Definition load_seen_internships (data_file : option seen_file) : gset pystr :=
  match data_file with
  | Some f => list_to_set (file_seen f)
  | None => ∅
  end.

(** The watcher object after [__init__]. *)
Record InternshipWatcher := {
  sender_email : pystr;
  sender_password : pystr;
  recipient_email : pystr;
  seen_internships : gset pystr
}.

(** [__init__], given the three environment variables. *)
Definition InternshipWatcher_init (data_file : option seen_file)
    (env_sender env_password env_recipient : option pystr)
  : outcome InternshipWatcher :=
  let seen := load_seen_internships data_file in
  let set_ (v : option pystr) := negb (bool_decide (default [] v = [])) in
  if set_ env_sender && set_ env_password && set_ env_recipient
  then Returns {| sender_email := default [] env_sender;
                  sender_password := default [] env_password;
                  recipient_email := default [] env_recipient;
                  seen_internships := seen |}
  else Raises.

(** [save_seen_internships]: the file written, the clock being read once.
    The order of [list(self.seen_internships)] is that of [elements]. *)
Definition save_seen_internships (w : world) (ticks : nat) (seen : gset pystr)
  : seen_file :=
  {| file_seen := elements seen; last_updated := clock w ticks |}.

(** *** Rendering *)

Definition len_str {A} (l : list A) : pystr := str_int (Z.of_nat (length l)).

Definition no_new_subject : pystr :=
  [8218; 209; 960; 212; 8719; 232]%N ++ lit " No New VTU Internships Today".

Definition default_subject (new_internships : list Listing.t) : pystr :=
  if bool_decide (new_internships = []) then no_new_subject
  else [63743; 252; 246; 174]%N ++ lit " " ++ len_str new_internships
         ++ lit " New VTU Internship(s) Found!".

Definition header_html (internships : list Listing.t) : pystr :=
  if bool_decide (internships = [])
  then lit "<h1>" ++ [8218; 209; 960; 212; 8719; 232]%N
         ++ lit " No New VTU Internships Today</h1><p>We didn't find new listings since yesterday. You"
         ++ [8218; 196; 244]%N ++ lit "ll be notified when new ones appear.</p>"
  else lit "<h1>" ++ [63743; 252; 233; 226]%N
         ++ lit " New VTU Internships Available!</h1><p>Found " ++ len_str internships
         ++ lit " new internship(s) that match your criteria</p>".

Definition css_class (internship : Listing.t) : pystr :=
  let c0 := lit "internship" in
  let c1 :=
    if bool_decide (Listing.type internship = lit "Paid") then c0 ++ lit " paid"
    else if bool_decide (Listing.type internship = lit "Free") then c0 ++ lit " free"
    else c0 in
  if Listing.job_offer internship then c1 ++ lit " job-offer" else c1.

(** [create_email_body] *)
Definition create_email_body (internships : list Listing.t) : pystr :=
  let html := page_head ++ header_html internships ++ page_tail in
  let html :=
    foldl (fun acc i => acc ++ listing_section (css_class i) i) html internships in
  html ++ page_footer.

(** *** Sending *)

(** [a or b] on strings, [None] being an absent argument. *)
Definition str_or (a : option pystr) (b : pystr) : pystr :=
  match a with
  | Some (c :: s) => c :: s
  | _ => b
  end.

(** [send_email_notification] as the [attempt]-th SMTP session of the run:
    whatever happens inside the [try] block, the method returns. *)
Definition send_email_notification (w : world) (self : InternshipWatcher)
    (attempt : nat) (new_internships : list Listing.t)
    (to_email subject : option pystr) : outcome unit * list event :=
  let msg :=
    {| msg_from := sender_email self;
       msg_to := str_or to_email (recipient_email self);
       msg_subject := str_or subject (default_subject new_internships);
       msg_body := create_email_body new_internships |} in
  let delivery : outcome unit := if smtp_ok w attempt msg then Returns () else Raises in
  match delivery with
  | Returns _ => (Returns (), [EvMailSent msg])
  | Raises => (Returns (), [EvMailError msg])
  end.

(** [get_subscribers]: the last test of the loop over the rows. *)
Definition get_subscribers (w : world) : list pystr :=
  filter (fun email => email ≠ [] ∧ (64%N : N) ∈ email) (sheet_emails w).

(** The loops of lines 380-386 and 394-400. *)
Fixpoint notify_loop (w : world) (self : InternshipWatcher)
    (new_internships : list Listing.t) (subject : option pystr)
    (subscribers : list pystr) (attempt sent : nat) : nat * list event :=
  match subscribers with
  | [] => (sent, [])
  | email :: rest =>
      let '(r, ev) := send_email_notification w self attempt new_internships (Some email) subject in
      match r with
      | Returns _ =>
          let '(n, tr) := notify_loop w self new_internships subject rest (S attempt) (S sent) in
          (n, ev ++ tr)
      | Raises =>
          let '(n, tr) := notify_loop w self new_internships subject rest (S attempt) sent in
          (n, ev ++ EvNotifyFailed email :: tr)
      end
  end.

(** Lines 379-389 and 393-403: all subscribers, or the configured
    recipient when there is none. *)
Definition notify (w : world) (self : InternshipWatcher)
    (new_internships : list Listing.t) (subject : option pystr) : list event :=
  let subscribers := get_subscribers w in
  if bool_decide (subscribers = [])
  then (send_email_notification w self 0%nat new_internships None subject).2
  else
    let '(sent, tr) := notify_loop w self new_internships subject subscribers 0%nat 0%nat in
    tr ++ [EvReport sent (length subscribers)].

(** *** Change detection *)

(** Lines 369-373. *)
Fixpoint find_new (current_internships : list Listing.t) (seen : gset pystr)
  : list Listing.t * gset pystr :=
  match current_internships with
  | [] => ([], seen)
  | internship :: rest =>
      if bool_decide (Listing.id internship ∈ seen)
      then find_new rest seen
      else
        let '(new_internships, seen') := find_new rest ({[Listing.id internship]} ∪ seen) in
        (internship :: new_internships, seen')
  end.

(** *** One run *)

Record run_result := {
  r_new : list Listing.t;        (** [new_internships], empty when not computed *)
  r_seen : gset pystr;           (** [self.seen_internships] at the end *)
  r_file : option seen_file;     (** the data file at the end *)
  r_trace : list event
}.

(** [check_for_new_internships] from line 362 on, [current_internships]
    being what [get_all_internships] returned after [ticks] clock readings. *)
Definition check_current (w : world) (self : InternshipWatcher)
    (data_file : option seen_file) (current_internships : list Listing.t) (ticks : nat)
  : run_result :=
  if bool_decide (current_internships = [])
  then {| r_new := []; r_seen := seen_internships self; r_file := data_file; r_trace := [] |}
  else
    let '(new_internships, seen) := find_new current_internships (seen_internships self) in
    if bool_decide (new_internships = [])
    then
      {| r_new := new_internships; r_seen := seen; r_file := data_file;
         r_trace := notify w self [] (Some no_new_subject) |}
    else
      let f := save_seen_internships w ticks seen in
      {| r_new := new_internships; r_seen := seen; r_file := Some f;
         r_trace := notify w self new_internships None ++ [EvSave f] |}.

(** [check_for_new_internships] *)
Definition check_for_new_internships (w : world) (fuel : nat)
    (self : InternshipWatcher) (data_file : option seen_file) : option run_result :=
  match get_all_internships w fuel 0%nat with
  | None => None
  | Some (current_internships, ticks, tr) =>
      let r := check_current w self data_file current_internships ticks in
      Some {| r_new := r_new r; r_seen := r_seen r; r_file := r_file r;
              r_trace := tr ++ r_trace r |}
  end.

(** A watcher constructed over [data_file] with a complete configuration. *)
Definition watcher_over (data_file : option seen_file)
    (sender password recipient : pystr) : InternshipWatcher :=
  {| sender_email := sender; sender_password := password;
     recipient_email := recipient;
     seen_internships := load_seen_internships data_file |}.

(** *** Vocabulary of the properties *)

(** The value of field [k] of a raw item ([None] of Python when absent). *)
Definition field (data : json) (k : pystr) : json :=
  match data with
  | JDict kvs => dict_get kvs k JNull
  | _ => JNull
  end.

(** The [name] of a nested [company] or [city] object. *)
Definition name_of (v : json) : json := field (py_or v (JDict [])) (lit "name").

(** The trimmed string a field resolves to, empty when it holds no string. *)
Definition text_of (v : json) : pystr :=
  match v with
  | JStr s => strip s
  | _ => []
  end.

Definition resolved_title (data : json) : pystr := text_of (field data (lit "title")).
Definition resolved_company (data : json) : pystr :=
  text_of (name_of (field data (lit "company"))).

(** A field on which [(v or '').strip()] does not raise. *)
Definition text_ok (v : json) : bool :=
  negb (truthy v) || match v with JStr _ => true | _ => false end.

(** A field on which [(v or {}).get(...)] does not raise. *)
Definition dict_ok (v : json) : bool :=
  negb (truthy v) || match v with JDict _ => true | _ => false end.

(** The raw items on which the body of [process_internship_data] raises
    nothing. *)
Definition well_typed (data : json) : bool :=
  match data with JDict _ => true | _ => false end
  && text_ok (field data (lit "title"))
  && dict_ok (field data (lit "company"))
  && text_ok (name_of (field data (lit "company")))
  && dict_ok (field data (lit "city"))
  && text_ok (name_of (field data (lit "city")))
  && text_ok (field data (lit "description"))
  && text_ok (field data (lit "workMode"))
  && text_ok (field data (lit "duration"))
  && text_ok (field data (lit "deadline"))
  && text_ok (field data (lit "type"))
  && text_ok (field data (lit "job_offer_package")).

Definition nonempty (s : pystr) : bool := negb (bool_decide (s = [])).

Definition has_key (data : json) (k : pystr) : bool :=
  match data with
  | JDict kvs => bool_decide (is_Some (dict_lookup kvs k))
  | _ => false
  end.

(** A listing with its observation time replaced. *)
Definition observed_at (now : pystr) (l : Listing.t) : Listing.t :=
  {| Listing.id := Listing.id l; Listing.title := Listing.title l;
     Listing.company := Listing.company l; Listing.location := Listing.location l;
     Listing.description := Listing.description l;
     Listing.work_mode := Listing.work_mode l; Listing.duration := Listing.duration l;
     Listing.deadline := Listing.deadline l; Listing.type := Listing.type l;
     Listing.stipend := Listing.stipend l; Listing.job_offer := Listing.job_offer l;
     Listing.job_package := Listing.job_package l; Listing.link := Listing.link l;
     Listing.scraped_at := now |}.

(** The record [process_internship_data] builds, read off the raw item
    field by field. *)
Definition normalized (now : pystr) (data : json) : Listing.t :=
  let description := text_of (field data (lit "description")) in
  let duration := text_of (field data (lit "duration")) in
  let slug := py_or (field data (lit "slug")) (JStr []) in
  {| Listing.id :=
       py_str (match data with
               | JDict kvs => dict_get kvs (lit "id") (JStr [])
               | _ => JStr []
               end);
     Listing.title := resolved_title data;
     Listing.company := resolved_company data;
     Listing.location := text_of (name_of (field data (lit "city")));
     Listing.description :=
       if bool_decide (description = []) then [] else take 500 description;
     Listing.work_mode := text_of (field data (lit "workMode"));
     Listing.duration :=
       if bool_decide (duration = []) then [] else duration ++ lit " months";
     Listing.deadline := text_of (field data (lit "deadline"));
     Listing.type := text_of (field data (lit "type"));
     Listing.stipend :=
       stipend_display
         (py_or (field data (lit "stipend")) (field data (lit "internship_fee")))
         (text_of (field data (lit "type")));
     Listing.job_offer :=
       truthy (match data with
               | JDict kvs => dict_get kvs (lit "is_job_offer") (JInt 0)
               | _ => JInt 0
               end);
     Listing.job_package := text_of (field data (lit "job_offer_package"));
     Listing.link :=
       if truthy slug then website_base_url ++ lit "/" ++ py_str slug
       else website_base_url;
     Listing.scraped_at := now |}.

(** Sample raw items. *)
Definition acme : json := JDict [(lit "name", JStr (lit "Acme"))].

(** A listing with an amount and the type "Free". *)
Definition free_with_amount : json :=
  JDict [(lit "id", JInt 7); (lit "title", JStr (lit "Backend Intern"));
         (lit "company", acme); (lit "stipend", JInt 5000);
         (lit "type", JStr (lit "Free"))].

(** A listing whose [duration] is a JSON number. *)
Definition numeric_duration : json :=
  JDict [(lit "id", JStr (lit "42")); (lit "title", JStr (lit "Backend Intern"));
         (lit "company", acme); (lit "duration", JInt 3)].

(** The same listing without an [id]. *)
Definition numeric_duration_no_id : json :=
  JDict [(lit "title", JStr (lit "Backend Intern"));
         (lit "company", acme); (lit "duration", JInt 3)].

(** *** Vocabulary of the fetch loop *)

(** [api_data['data']] when [api_data] is a dict that has the key. *)
Definition items_of (api_data : json) : option json :=
  match api_data with
  | JDict kvs => dict_lookup kvs (lit "data")
  | _ => None
  end.

Definition last_page_of (api_data : json) : json :=
  match api_data with
  | JDict kvs => dict_get kvs (lit "last_page") (JInt 1)
  | _ => JNull
  end.

Definition iterable (v : json) : bool :=
  match v with
  | JList _ | JDict _ | JStr _ => true
  | _ => false
  end.

Definition is_number (v : json) : bool :=
  match v with
  | JInt _ | JBool _ => true
  | _ => false
  end.

(** The page is a failure: the fetch came back empty (transport, decoding
    or application error) or the payload departs from the envelope (no item
    array, items that cannot be iterated, a last page that is no number). *)
Definition fetch_failure (w : world) (page : nat) : bool :=
  let api_data := fetch_internships_from_api w page in
  match items_of api_data with
  | None => true
  | Some v => truthy v && negb (iterable v) || negb (is_number (last_page_of api_data))
  end.

(** The page yields zero items. *)
Definition yields_no_items (w : world) (page : nat) : bool :=
  match items_of (fetch_internships_from_api w page) with
  | Some v => negb (truthy v)
  | None => false
  end.

(** The page reports itself as the declared last page. *)
Definition declares_last (w : world) (page : nat) : bool :=
  match last_page_of (fetch_internships_from_api w page) with
  | JInt z => z <=? Z.of_nat page
  | JBool b => (if b then 1 else 0) <=? Z.of_nat page
  | _ => false
  end.

Definition stop_condition (w : world) (page : nat) : bool :=
  fetch_failure w page || yields_no_items w page || declares_last w page.

(** Page [k] is the first page on which a stop condition holds. *)
Definition first_stop (w : world) (k : nat) : Prop :=
  (1 <= k)%nat /\ stop_condition w k = true /\
  Forall (fun j => stop_condition w j = false) (seq 1 (k - 1)).

(** Does the loop leave after [page]?  Read off [get_all_loop]. *)
Definition page_stops (w : world) (page : nat) : bool :=
  let api_data := fetch_internships_from_api w page in
  match page_items api_data with
  | None => true
  | Some _ => reached_last page api_data
  end.

(** The listings of one page, in page order, observation times erased. *)
Definition page_listings (w : world) (page : nat) : list Listing.t :=
  omap (process_internship_data [])
       (default [] (page_items (fetch_internships_from_api w page))).

Definition fetched_pages (tr : list event) : list nat :=
  omap (fun e => match e with EvFetch p => Some p | _ => None end) tr.

(** *** Vocabulary of detection and dispatch *)

Definition ids (l : list Listing.t) : list pystr := Listing.id <$> l.

(** The first listing of each identifier, order kept. *)
Fixpoint first_by_id (l : list Listing.t) : list Listing.t :=
  match l with
  | [] => []
  | x :: r => x :: filter (fun y => Listing.id y ≠ Listing.id x) (first_by_id r)
  end.

(** The messages handed to the SMTP server, delivered or not. *)
Definition attempted (tr : list event) : list message :=
  omap (fun e => match e with
                 | EvMailSent m | EvMailError m => Some m
                 | _ => None
                 end) tr.

Definition delivered (tr : list event) : list message :=
  omap (fun e => match e with EvMailSent m => Some m | _ => None end) tr.

Definition saves (tr : list event) : list seen_file :=
  omap (fun e => match e with EvSave f => Some f | _ => None end) tr.

Definition reports (tr : list event) : list (nat * nat) :=
  omap (fun e => match e with EvReport s n => Some (s, n) | _ => None end) tr.

(** The addresses a run writes to. *)
Definition recipients (w : world) (self : InternshipWatcher) : list pystr :=
  if bool_decide (get_subscribers w = []) then [recipient_email self]
  else get_subscribers w.

(** The message about [new_internships] for one address. *)
Definition message_for (self : InternshipWatcher) (new_internships : list Listing.t)
    (to : pystr) : message :=
  {| msg_from := sender_email self;
     msg_to := to;
     msg_subject := default_subject new_internships;
     msg_body := create_email_body new_internships |}.

(** The fixed "no new listings" message. *)
Definition no_new_message (self : InternshipWatcher) (to : pystr) : message :=
  {| msg_from := sender_email self;
     msg_to := to;
     msg_subject := no_new_subject;
     msg_body := page_head ++ header_html [] ++ page_tail ++ page_footer |}.

(** *** Sample worlds *)

Definition raw (n : Z) (title : string) : json :=
  JDict [(lit "id", JInt n); (lit "title", JStr (lit title)); (lit "company", acme)].

Definition page_reply (items : list json) (last_page : Z) : response :=
  Reply (JDict [(lit "success", JBool true);
                (lit "data", JDict [(lit "data", JList items);
                                    (lit "last_page", JInt last_page)])]).

Definition stamp (n : nat) : pystr := lit "2025-01-01T00:00:" ++ str_int (Z.of_nat n).

Definition alice : pystr := lit "alice@example.org".
Definition bob : pystr := lit "bob@example.org".
Definition carol : pystr := lit "carol@example.org".

(** Three pages that declare 3 as the last page, and a fourth page that
    exists all the same. *)
Definition four_pages : world :=
  {| upstream := fun p =>
       match p with
       | 1%nat => page_reply [raw 1 "A"; raw 2 "B"] 3
       | 2%nat => page_reply [raw 3 "C"] 3
       | 3%nat => page_reply [raw 4 "D"] 3
       | 4%nat => page_reply [raw 5 "E"] 3
       | _ => RequestError
       end;
     clock := stamp;
     sheet_emails := [alice; bob; carol];
     smtp_ok := fun _ m => negb (bool_decide (msg_to m = bob)) |}.

(** One page with the listings 1, 2, 3; every mail is delivered. *)
Definition one_page : world :=
  {| upstream := fun p =>
       match p with
       | 1%nat => page_reply [raw 1 "A"; raw 2 "B"; raw 3 "C"] 1
       | _ => RequestError
       end;
     clock := stamp;
     sheet_emails := [alice];
     smtp_ok := fun _ _ => true |}.

(** The same feed read at a later time, with no subscriber. *)
Definition one_page_later : world :=
  {| upstream := upstream one_page;
     clock := fun n => stamp (100 + n);
     sheet_emails := [];
     smtp_ok := fun _ _ => false |}.

(** The API is down. *)
Definition api_down : world :=
  {| upstream := fun _ => RequestError;
     clock := stamp;
     sheet_emails := [alice];
     smtp_ok := fun _ _ => true |}.

(** A data file that already holds the identifiers 1, 2 and 3. *)
Definition seen_123 : seen_file :=
  {| file_seen := [lit "1"; lit "2"; lit "3"]; last_updated := stamp 0 |}.

Definition operator (data_file : option seen_file) : InternshipWatcher :=
  watcher_over data_file (lit "bot@example.org") (lit "secret") (lit "admin@example.org").

(** A listing without [id]. *)
Definition no_id : json :=
  JDict [(lit "title", JStr (lit "Backend Intern")); (lit "company", acme)].

(** The world [w] with another SMTP behaviour. *)
Definition with_smtp (w : world) (ok : nat -> message -> bool) : world :=
  {| upstream := upstream w; clock := clock w;
     sheet_emails := sheet_emails w; smtp_ok := ok |}.

(** Two listings of a batch with one identifier. *)
Definition twin (title : string) : Listing.t :=
  {| Listing.id := lit "7"; Listing.title := lit title; Listing.company := lit "Acme";
     Listing.location := []; Listing.description := []; Listing.work_mode := [];
     Listing.duration := []; Listing.deadline := []; Listing.type := [];
     Listing.stipend := []; Listing.job_offer := false; Listing.job_package := [];
     Listing.link := website_base_url; Listing.scraped_at := stamp 0 |}.

(** A listing with identifier [n] as the detector sees it. *)
Definition listed (n : Z) : Listing.t :=
  {| Listing.id := str_int n; Listing.title := lit "T"; Listing.company := lit "Acme";
     Listing.location := []; Listing.description := []; Listing.work_mode := [];
     Listing.duration := []; Listing.deadline := []; Listing.type := [];
     Listing.stipend := []; Listing.job_offer := false; Listing.job_package := [];
     Listing.link := website_base_url; Listing.scraped_at := stamp 0 |}.

(** Values for the texts left abstract above. *)
Definition plain_repr : json -> pystr := fun _ => lit "<object>".
Definition plain_head : pystr := lit "<html><body>".
Definition plain_tail : pystr := [].
Definition plain_footer : pystr := lit "</body></html>".
Definition plain_section : pystr -> Listing.t -> pystr :=
  fun css l => lit "<div>" ++ Listing.title l ++ lit "</div>".

(** *** Vocabulary of the further properties *)

(** The keys [process_internship_data] reads from a raw item. *)
Definition read_keys : list pystr :=
  [lit "id"; lit "title"; lit "company"; lit "city"; lit "description";
   lit "workMode"; lit "duration"; lit "deadline"; lit "type"; lit "stipend";
   lit "internship_fee"; lit "is_job_offer"; lit "job_offer_package"; lit "slug"].

(** A text that trimming leaves as it is. *)
Definition trimmed (s : pystr) : Prop := strip s = s.

(** A text whose first and last characters are no white space. *)
Definition clean_ends (s : pystr) : Prop :=
  (forall c r, s = c :: r -> isspace c = false)
  /\ (forall c r, s = r ++ [c] -> isspace c = false).

(** A raw item with white space around its texts, an unread key and a long
    description. *)
Definition padded_fields : list (pystr * json) :=
  [(lit "extra", JInt 1); (lit "id", JInt 12);
   (lit "title", JStr (lit "  Data Intern "));
   (lit "company", JDict [(lit "name", JStr (lit " Acme  "))]);
   (lit "slug", JStr (lit "data-intern"));
   (lit "description", JStr (replicate 600 120%N))].

Definition padded : json := JDict padded_fields.

(** The same item without the unread key, its keys in another order. *)
Definition reordered_fields : list (pystr * json) :=
  [(lit "title", JStr (lit "  Data Intern "));
   (lit "description", JStr (replicate 600 120%N));
   (lit "slug", JStr (lit "data-intern"));
   (lit "company", JDict [(lit "name", JStr (lit " Acme  "))]);
   (lit "id", JInt 12)].

Definition padded_reordered : json := JDict reordered_fields.

(** An item with the id 13. *)
Definition thirteen_fields : list (pystr * json) :=
  [(lit "id", JInt 13); (lit "title", JStr (lit "Data Intern")); (lit "company", acme)].

(** The requests of a run with one pause between two requests. *)
Fixpoint paced (pages : list nat) : list event :=
  match pages with
  | [] => []
  | [p] => [EvFetch p]
  | p :: rest => EvFetch p :: EvSleep :: paced rest
  end.

(** The log lines "Failed to notify" of a trace. *)
Definition notify_failures (tr : list event) : list pystr :=
  omap (fun e => match e with EvNotifyFailed a => Some a | _ => None end) tr.

(** [main]: construct the watcher, run the check; the exception of the
    constructor is logged and raised again.  [None] when the fetch loop has
    not left within [fuel] iterations. *)
Definition main (w : world) (fuel : nat) (data_file : option seen_file)
    (env_sender env_password env_recipient : option pystr)
  : option (outcome run_result) :=
  match InternshipWatcher_init data_file env_sender env_password env_recipient with
  | Raises => Some Raises
  | Returns watcher => Returns <$> check_for_new_internships w fuel watcher data_file
  end.

(** An environment variable that is unset or empty. *)
Definition unset (v : option pystr) : Prop := v = None \/ v = Some [].

(** Forget the abstract texts in a proof that is not about them. *)
Ltac forget_texts :=
  try clear listing_section; try clear page_head; try clear page_tail;
  try clear page_footer; try clear py_repr.

(** ** Properties of the normalizer *)

Lemma text_field_dict kvs k :
  text_field (JDict kvs) k =
    if text_ok (dict_get kvs k JNull) then Returns (text_of (dict_get kvs k JNull))
    else Raises.
Proof.
  unfold text_field, text_ok, py_or; simpl.
  destruct (dict_get kvs k JNull) as [|b|z|s|l|d]; simpl; try reflexivity.
  - destruct b; reflexivity.
  - destruct (z =? 0); reflexivity.
  - destruct s; reflexivity.
  - destruct l; reflexivity.
  - destruct d; reflexivity.
Qed.

Lemma text_field_name v :
  text_field (py_or v (JDict [])) (lit "name") =
    if dict_ok v && text_ok (name_of v) then Returns (text_of (name_of v)) else Raises.
Proof.
  unfold name_of, dict_ok, py_or.
  destruct v as [|b|z|s|l|d]; simpl; try reflexivity.
  - destruct b; reflexivity.
  - destruct (z =? 0); reflexivity.
  - destruct s; reflexivity.
  - destruct l; reflexivity.
  - destruct d as [|kv d]; simpl; [reflexivity|].
    rewrite text_field_dict. reflexivity.
Qed.

(** The body raises exactly on the items that are not [well_typed]. *)
Lemma process_internship_body_raises now data :
  well_typed data = false -> process_internship_body now data = Raises.
Proof.
  destruct data as [| | | | |kvs]; try reflexivity.
  unfold well_typed, process_internship_body, field.
  cbn [py_get obind].
  rewrite !text_field_dict, !text_field_name.
  repeat match goal with
  | |- context [text_ok ?v] => destruct (text_ok v); simpl; [|reflexivity]
  | |- context [dict_ok ?v] => destruct (dict_ok v); simpl; [|reflexivity]
  end.
  discriminate.
Qed.

Lemma process_internship_body_returns now data :
  well_typed data = true ->
  process_internship_body now data =
    Returns (if nonempty (resolved_title data) && nonempty (resolved_company data)
             then Some (normalized now data) else None).
Proof.
  destruct data as [| | | | |kvs]; try discriminate.
  unfold well_typed, process_internship_body, normalized, resolved_title,
    resolved_company, nonempty, field.
  cbn [py_get obind].
  rewrite !text_field_dict, !text_field_name.
  repeat match goal with
  | |- context [text_ok ?v] => destruct (text_ok v); cbn [obind andb]; [|discriminate]
  | |- context [dict_ok ?v] => destruct (dict_ok v); cbn [obind andb]; [|discriminate]
  end.
  intros _.
  match goal with |- context [if ?c then Returns _ else _] => destruct c end;
    reflexivity.
Qed.

(** Closed form of the normalizer. *)
Lemma process_internship_data_eq now data :
  process_internship_data now data =
    if well_typed data && nonempty (resolved_title data) && nonempty (resolved_company data)
    then Some (normalized now data) else None.
Proof.
  unfold process_internship_data.
  destruct (well_typed data) eqn:Hwt.
  - rewrite process_internship_body_returns by assumption. reflexivity.
  - rewrite process_internship_body_raises by assumption. reflexivity.
Qed.

(** The stipend display by cases: the label "Free" wins over everything,
    then the amount, then the label "Paid". *)
Lemma stipend_display_cases stipend ty :
  stipend_display stipend ty =
    if bool_decide (ty = lit "Free") then lit "Free"
    else if truthy stipend then currency_prefix ++ py_str stipend
    else if bool_decide (ty = lit "Paid") then lit "Paid"
    else [].
Proof.
  unfold stipend_display.
  destruct (truthy stipend).
  - rewrite (bool_decide_eq_false_2 (currency_prefix ++ _ = [])) by discriminate.
    rewrite andb_false_r. reflexivity.
  - rewrite (bool_decide_eq_true_2 (@nil N = [])) by reflexivity.
    rewrite andb_true_r.
    destruct (bool_decide (ty = lit "Paid")) eqn:Hp.
    + apply bool_decide_eq_true_1 in Hp. subst ty. reflexivity.
    + reflexivity.
Qed.

Example stipend_amount_and_paid :
  stipend_display (JInt 5000) (lit "Paid") = currency_prefix ++ lit "5000".
Proof. reflexivity. Qed.

Example stipend_absent_and_free : stipend_display JNull (lit "Free") = lit "Free".
Proof. reflexivity. Qed.

(** C1, amended: for every raw item the normalizer keeps, the stipend
    display is the literal "Free" when the type is "Free", whatever the
    amount; otherwise the stipend amount, or failing that the fee amount,
    with the currency prefix when that amount is present (a true value of
    Python), also when the type is "Paid"; otherwise the literal "Paid"
    when the type is "Paid"; otherwise empty. *)
Theorem stipend_display_tiers now data :
  Listing.stipend <$> process_internship_data now data =
    (fun l =>
       let amount := py_or (field data (lit "stipend")) (field data (lit "internship_fee")) in
       if bool_decide (Listing.type l = lit "Free") then lit "Free"
       else if truthy amount then currency_prefix ++ py_str amount
       else if bool_decide (Listing.type l = lit "Paid") then lit "Paid"
       else []) <$> process_internship_data now data.
Proof.
  rewrite process_internship_data_eq.
  destruct (_ && _ && _); [|reflexivity].
  cbn [fmap option_fmap option_map normalized Listing.stipend Listing.type].
  f_equal. apply stipend_display_cases.
Qed.

(** C5, amended: two evaluations of the normalizer on one raw item, at
    clock readings [now1] and [now2], reject it together or return listings
    that agree on every field but the observation time, and the observation
    time of a listing is the clock reading of its evaluation. *)
Theorem normalizer_deterministic_up_to_clock now1 now2 data :
  observed_at [] <$> process_internship_data now1 data
    = observed_at [] <$> process_internship_data now2 data
  /\ Listing.scraped_at <$> process_internship_data now1 data
    = (fun _ => now1) <$> process_internship_data now1 data.
Proof.
  rewrite !process_internship_data_eq.
  destruct (_ && _); split; reflexivity.
Qed.

(** C9, amended: the normalizer returns a listing exactly for the items
    that are well typed (no field makes the body raise) and whose title and
    company name are non-empty after trimming; every other item is dropped. *)
Theorem normalizer_keeps_iff now data :
  bool_decide (is_Some (process_internship_data now data)) =
    well_typed data && nonempty (resolved_title data) && nonempty (resolved_company data).
Proof.
  rewrite process_internship_data_eq.
  destruct (_ && _ && _).
  - apply bool_decide_eq_true_2. eauto.
  - apply bool_decide_eq_false_2. intros [l Hl]. discriminate.
Qed.

Example rejects_missing_company now :
  process_internship_data now (JDict [(lit "title", JStr (lit "Backend Intern"))]) = None.
Proof. reflexivity. Qed.

Example keeps_title_and_company now :
  Listing.id <$> process_internship_data now
    (JDict [(lit "id", JStr (lit "42")); (lit "title", JStr (lit "Backend Intern"));
            (lit "company", acme)]) = Some (lit "42").
Proof. reflexivity. Qed.

(** An item without [id] that is kept gets the empty identifier. *)
Lemma process_internship_data_no_id now data l :
  has_key data (lit "id") = false ->
  process_internship_data now data = Some l ->
  Listing.id l = [].
Proof.
  rewrite process_internship_data_eq.
  destruct (_ && _ && _); [|discriminate].
  intros Hk [= <-]. destruct data as [| | | | |kvs]; try reflexivity.
  simpl in *. unfold dict_get.
  destruct (dict_lookup kvs (lit "id")); [|reflexivity].
  apply bool_decide_eq_false_1 in Hk. exfalso. apply Hk. eauto.
Qed.

(** ** Properties of the fetch loop *)

(** The loop leaves after a page exactly when one of the three stop
    conditions holds on it. *)
Lemma page_stops_eq w page : page_stops w page = stop_condition w page.
Proof.
  unfold page_stops, stop_condition, fetch_failure, yields_no_items, declares_last,
    reached_last, page_items, items_of, last_page_of.
  destruct (fetch_internships_from_api w page) as [| | | | |kvs]; try reflexivity.
  destruct kvs as [|kv kvs]; [reflexivity|].
  cbn [truthy negb bool_decide py_get].
  rewrite (bool_decide_eq_false_2 (kv :: kvs = [])) by discriminate.
  cbn [negb].
  destruct (dict_lookup (kv :: kvs) (lit "data")) as [v|]; [|reflexivity].
  destruct (truthy v) eqn:Hv; cbn [negb andb orb];
    [|rewrite orb_true_r; reflexivity].
  destruct v as [|b|z|s|l|d]; cbn [py_iter iterable negb orb]; try reflexivity;
    destruct (dict_get (kv :: kvs) (lit "last_page") (JInt 1)) as [|b'|z'|s'|l'|d'];
    cbn [py_ge is_number negb orb]; reflexivity.
Qed.

Lemma process_item_eq w ticks data :
  (process_item w ticks data).1 = process_internship_data (clock w ticks) data.
Proof.
  unfold process_item, process_internship_data.
  destruct (process_internship_body _ _); reflexivity.
Qed.

Lemma process_internship_data_clock now1 now2 data :
  process_internship_data now2 data =
    observed_at now2 <$> process_internship_data now1 data.
Proof.
  rewrite !process_internship_data_eq.
  destruct (_ && _); reflexivity.
Qed.

(** The listings of a page do not depend on the clock but for their
    observation times. *)
Lemma process_items_erased w ticks items :
  observed_at [] <$> (process_items w ticks items).1 =
    omap (process_internship_data []) items.
Proof.
  revert ticks. induction items as [|data rest IH]; intros ticks; [reflexivity|].
  cbn [process_items omap list_omap].
  pose proof (process_item_eq w ticks data) as Hd.
  destruct (process_item w ticks data) as [r ticks1]; cbn [fst] in Hd.
  specialize (IH ticks1).
  destruct (process_items w ticks1 rest) as [found ticks2]; cbn [fst] in *.
  rewrite (process_internship_data_clock (clock w ticks) [] data), <- Hd.
  destruct r as [l|]; cbn; rewrite IH; reflexivity.
Qed.

(** The loop started at [page] leaves at [page + n] when that is the first
    page that stops, having fetched the pages in between in ascending order
    and collected their listings in page order. *)
Lemma get_all_loop_stops w n :
  forall page ticks acc fuel,
    page_stops w (page + n) = true ->
    (forall j, (page <= j < page + n)%nat -> page_stops w j = false) ->
    (n < fuel)%nat ->
    exists res ticks' tr,
      get_all_loop w fuel page ticks acc = Some (res, ticks', tr)
      /\ fetched_pages tr = seq page (S n)
      /\ observed_at [] <$> res =
           (observed_at [] <$> acc) ++ concat (page_listings w <$> seq page (S n)).
Proof.
  induction n as [|n IH]; intros page ticks acc fuel Hstop Hgo Hfuel.
  - destruct fuel as [|fuel]; [lia|].
    rewrite Nat.add_0_r in Hstop. unfold page_stops in Hstop.
    cbn [get_all_loop seq fmap list_fmap concat].
    unfold page_listings.
    destruct (page_items (fetch_internships_from_api w page)) as [items|] eqn:Hit.
    + pose proof (process_items_erased w ticks items) as He.
      destruct (process_items w ticks items) as [found ticks1]; cbn [fst] in He.
      rewrite Hstop. eexists _, _, _. split; [reflexivity|]. split; [reflexivity|].
      rewrite fmap_app, He. cbn. rewrite app_nil_r. reflexivity.
    + eexists _, _, _. split; [reflexivity|]. split; [reflexivity|].
      cbn. rewrite app_nil_r. reflexivity.
  - destruct fuel as [|fuel]; [lia|].
    assert (Hp : page_stops w page = false) by (apply Hgo; lia).
    unfold page_stops in Hp.
    cbn [get_all_loop].
    destruct (page_items (fetch_internships_from_api w page)) as [items|] eqn:Hit;
      [|discriminate].
    pose proof (process_items_erased w ticks items) as He.
    destruct (process_items w ticks items) as [found ticks1]; cbn [fst] in He.
    rewrite Hp.
    destruct (IH (S page) ticks1 (acc ++ found) fuel) as (res & t & tr & Hr & Hf & Hl).
    + replace (S page + n)%nat with (page + S n)%nat by lia. exact Hstop.
    + intros j Hj. apply Hgo. lia.
    + lia.
    + rewrite Hr. eexists _, _, _. split; [reflexivity|]. split.
      * unfold fetched_pages in *. cbn [omap list_omap]. rewrite Hf. reflexivity.
      * rewrite Hl, fmap_app, He.
        change (seq page (S (S n))) with (page :: seq (S page) (S n)).
        cbn [fmap list_fmap concat]. unfold page_listings at 2. rewrite Hit.
        cbn [default]. rewrite <- app_assoc. reflexivity.
Qed.

(** The loop by cases: it has left within [fuel] iterations, at the first
    page that stops, or no page of the first [fuel] ones stops. *)
Lemma get_all_loop_cases w fuel :
  forall page ticks acc,
    match get_all_loop w fuel page ticks acc with
    | Some (_, _, tr) =>
        exists n, (n < fuel)%nat
          /\ page_stops w (page + n) = true
          /\ (forall j, (page <= j < page + n)%nat -> page_stops w j = false)
          /\ fetched_pages tr = seq page (S n)
    | None => forall j, (page <= j < page + fuel)%nat -> page_stops w j = false
    end.
Proof.
  induction fuel as [|fuel IH]; intros page ticks acc; [cbn; intros j Hj; lia|].
  cbn [get_all_loop].
  destruct (page_items (fetch_internships_from_api w page)) as [items|] eqn:Hit.
  - destruct (process_items w ticks items) as [found ticks1].
    destruct (reached_last page (fetch_internships_from_api w page)) eqn:Hlast.
    + exists 0%nat. rewrite Nat.add_0_r. unfold page_stops. rewrite Hit.
      split; [lia|]. split; [exact Hlast|]. split; [intros j Hj; lia|reflexivity].
    + assert (Hp : page_stops w page = false) by (unfold page_stops; rewrite Hit; exact Hlast).
      specialize (IH (S page) ticks1 (acc ++ found)).
      destruct (get_all_loop w fuel (S page) ticks1 (acc ++ found)) as [[[res t] tr]|].
      * destruct IH as (n & Hn & Hs & Hgo & Hf). exists (S n).
        replace (page + S n)%nat with (S page + n)%nat by lia.
        split; [lia|]. split; [exact Hs|]. split.
        -- intros j Hj. destruct (decide (j = page)) as [->|Hne]; [exact Hp|].
           apply Hgo. lia.
        -- unfold fetched_pages in *. cbn [omap list_omap]. rewrite Hf. reflexivity.
      * intros j Hj. destruct (decide (j = page)) as [->|Hne]; [exact Hp|].
        apply IH. lia.
  - exists 0%nat. rewrite Nat.add_0_r. unfold page_stops. rewrite Hit.
    split; [lia|]. split; [reflexivity|]. split; [intros j Hj; lia|reflexivity].
Qed.

(** On a feed no page of which meets a stop condition the loop never
    leaves. *)
Lemma get_all_internships_endless w :
  (forall page, stop_condition w page = false) ->
  forall fuel ticks, get_all_internships w fuel ticks = None.
Proof.
  intros Hnever fuel ticks. unfold get_all_internships.
  pose proof (get_all_loop_cases w fuel 1 ticks []) as Hc.
  destruct (get_all_loop w fuel 1 ticks []) as [[[res t] tr]|]; [|reflexivity].
  destruct Hc as (n & _ & Hs & _). rewrite page_stops_eq, Hnever in Hs. discriminate.
Qed.

Lemma first_stop_page_stops w k :
  first_stop w k ->
  page_stops w (1 + (k - 1)) = true /\
  forall j, (1 <= j < 1 + (k - 1))%nat -> page_stops w j = false.
Proof.
  intros (Hk & Hs & Hgo).
  replace (1 + (k - 1))%nat with k by lia.
  split; [rewrite page_stops_eq; exact Hs|].
  intros j Hj. rewrite page_stops_eq.
  rewrite Forall_forall in Hgo. apply Hgo. apply elem_of_seq. lia.
Qed.

(** With a first stopping page [k] and [fuel] for [k] iterations,
    [get_all_internships] returns. *)
Lemma get_all_internships_returns w k fuel ticks :
  first_stop w k -> (k <= fuel)%nat ->
  exists res ticks' tr,
    get_all_internships w fuel ticks = Some (res, ticks', tr)
    /\ fetched_pages tr = seq 1 k
    /\ observed_at [] <$> res = concat (page_listings w <$> seq 1 k).
Proof.
  intros Hfs Hfuel. pose proof Hfs as (Hk & _ & _).
  destruct (first_stop_page_stops w k Hfs) as [Hs Hgo].
  destruct (get_all_loop_stops w (k - 1) 1%nat ticks [] fuel Hs Hgo) as
    (res & t & tr & Hr & Hf & Hl); [lia|].
  replace (S (k - 1)) with k in * by lia.
  exists res, t, tr. auto.
Qed.

(** C7: on every feed, with [k] the first page on which a stop condition
    holds (the page declares itself last, yields no item, or fails), the
    fetcher returns after fetching exactly the pages 1, 2, ..., k in that
    order: nothing beyond [k] is requested, whatever the feed has there. *)
Theorem pagination_stops_at_first_stop w k fuel ticks :
  first_stop w k -> (k <= fuel)%nat ->
  exists res ticks' tr,
    get_all_internships w fuel ticks = Some (res, ticks', tr)
    /\ fetched_pages tr = seq 1 k.
Proof.
  intros Hfs Hfuel.
  destruct (get_all_internships_returns w k fuel ticks Hfs Hfuel) as
    (res & t & tr & Hr & Hf & _).
  eauto.
Qed.

(** ** Properties of the change detector *)

Lemma filter_all {A} (P : A -> Prop) `{!forall x, Decision (P x)} (l : list A) :
  Forall P l -> filter P l = l.
Proof.
  induction 1 as [|x r Hx _ IH]; [reflexivity|].
  rewrite filter_cons_True by exact Hx. by rewrite IH.
Qed.

Lemma filter_none {A} (P : A -> Prop) `{!forall x, Decision (P x)} (l : list A) :
  Forall (fun x => ~ P x) l -> filter P l = [].
Proof.
  induction 1 as [|x r Hx _ IH]; [reflexivity|].
  rewrite filter_cons_False by exact Hx. exact IH.
Qed.

Lemma filter_first_by_id_seen (seen : gset pystr) a (l : list Listing.t) :
  a ∈ seen ->
  filter (fun y => Listing.id y ∉ seen) (filter (fun y => Listing.id y ≠ a) l) =
    filter (fun y => Listing.id y ∉ seen) l.
Proof.
  forget_texts.
  intros Ha. rewrite list_filter_filter. apply list_filter_iff.
  intros y. split; [tauto|]. intros Hy. split; [exact Hy|].
  intros Heq. apply Hy. rewrite Heq. exact Ha.
Qed.

Lemma filter_first_by_id_unseen (seen : gset pystr) a (l : list Listing.t) :
  filter (fun y => Listing.id y ∉ seen) (filter (fun y => Listing.id y ≠ a) l) =
    filter (fun y => Listing.id y ∉ {[a]} ∪ seen) l.
Proof.
  forget_texts.
  rewrite list_filter_filter. apply list_filter_iff.
  intros y. set_solver.
Qed.

(** Closed form of the detector. *)
Lemma find_new_eq current seen :
  find_new current seen =
    (filter (fun l => Listing.id l ∉ seen) (first_by_id current),
     seen ∪ list_to_set (ids current)).
Proof.
  forget_texts.
  revert seen. induction current as [|x r IH]; intros seen.
  - cbn. f_equal. set_solver.
  - cbn [find_new first_by_id ids fmap list_fmap list_to_set].
    case_bool_decide as Hx.
    + rewrite IH. f_equal.
      * rewrite filter_cons_False by (intros Hn; apply Hn, Hx).
        rewrite filter_first_by_id_seen by exact Hx. reflexivity.
      * unfold ids. set_solver.
    + rewrite IH. f_equal.
      * rewrite filter_cons_True by exact Hx.
        rewrite filter_first_by_id_unseen. reflexivity.
      * unfold ids. set_solver.
Qed.

Lemma first_by_id_sublist l : first_by_id l `sublist_of` l.
Proof.
  induction l as [|x r IH]; cbn; [constructor|].
  constructor. etransitivity; [apply sublist_filter|exact IH].
Qed.

Lemma first_by_id_ids l a : a ∈ ids (first_by_id l) <-> a ∈ ids l.
Proof.
  unfold ids. induction l as [|x r IH]; cbn; [reflexivity|].
  rewrite !elem_of_cons, <- IH, !list_elem_of_fmap.
  split.
  - intros [->|(y & -> & Hy)]; [by left|].
    apply list_elem_of_filter in Hy as [_ Hy]. right. eauto.
  - intros [->|(y & -> & Hy)]; [by left|].
    destruct (decide (Listing.id y = Listing.id x)) as [->|Hne]; [by left|].
    right. exists y. split; [reflexivity|]. apply list_elem_of_filter. auto.
Qed.

Lemma first_by_id_NoDup l : NoDup (ids (first_by_id l)).
Proof.
  unfold ids. induction l as [|x r IH]; cbn; [constructor|].
  constructor.
  - rewrite list_elem_of_fmap. intros (y & Hy & Hin).
    apply list_elem_of_filter in Hin as [Hne _]. congruence.
  - apply (sublist_NoDup _ (Listing.id <$> first_by_id r)); [exact IH|].
    apply fmap_sublist, sublist_filter.
Qed.

Lemma first_by_id_distinct l : NoDup (ids l) -> first_by_id l = l.
Proof.
  unfold ids. induction l as [|x r IH]; cbn; [reflexivity|].
  intros Hnd. apply NoDup_cons in Hnd as [Hx Hr].
  rewrite (IH Hr). f_equal.
  apply filter_all, Forall_forall. intros y Hy Heq.
  apply Hx. rewrite <- Heq. apply list_elem_of_fmap. eauto.
Qed.

(** Nothing is new exactly when every identifier of the batch is seen. *)
Lemma find_new_nil current seen :
  (find_new current seen).1 = [] <-> (forall a, a ∈ ids current -> a ∈ seen).
Proof.
  rewrite find_new_eq. cbn [fst]. split.
  - intros Hnil a Ha. apply first_by_id_ids in Ha.
    unfold ids in Ha. apply list_elem_of_fmap in Ha as (y & -> & Hy).
    destruct (decide (Listing.id y ∈ seen)) as [|Hn]; [assumption|].
    assert (y ∈ filter (fun l => Listing.id l ∉ seen) (first_by_id current)) as Hin
      by (apply list_elem_of_filter; auto).
    rewrite Hnil in Hin. by apply elem_of_nil in Hin.
  - intros Hall. apply filter_none, Forall_forall. intros y Hy Hn.
    apply Hn, Hall, first_by_id_ids. unfold ids. apply list_elem_of_fmap. eauto.
Qed.

(** C8, amended: the detector returns, in batch order, the listings whose
    identifier is not in the loaded seen-state, keeping only the first
    listing of each identifier, and the seen-state it leaves is the loaded
    one with every identifier of the batch added. *)
Theorem change_detector_first_unseen current seen :
  (find_new current seen).1 =
    filter (fun l => Listing.id l ∉ seen) (first_by_id current)
  /\ (find_new current seen).1 `sublist_of` current
  /\ (find_new current seen).2 = seen ∪ list_to_set (ids current).
Proof.
  rewrite find_new_eq. cbn [fst snd]. split; [reflexivity|]. split; [|reflexivity].
  etransitivity; [apply sublist_filter|apply first_by_id_sublist].
Qed.

(** On a batch without repeated identifiers the detector is the plain
    filter. *)
Lemma find_new_distinct current seen :
  NoDup (ids current) ->
  (find_new current seen).1 = filter (fun l => Listing.id l ∉ seen) current.
Proof.
  intros Hnd. rewrite find_new_eq. cbn [fst]. rewrite first_by_id_distinct by exact Hnd.
  reflexivity.
Qed.

(** ** Properties of the store *)

(** [__init__] succeeds exactly on a complete configuration and then
    yields the watcher over the data file. *)
Lemma InternshipWatcher_init_configured data_file s p e :
  s ≠ [] -> p ≠ [] -> e ≠ [] ->
  InternshipWatcher_init data_file (Some s) (Some p) (Some e)
  = Returns (watcher_over data_file s p e).
Proof.
  intros Hs Hp He. unfold InternshipWatcher_init. cbn [default].
  rewrite !bool_decide_eq_false_2 by assumption. reflexivity.
Qed.

(** What [save_seen_internships] writes is read back as the same set. *)
Lemma load_save_seen_internships w ticks seen :
  load_seen_internships (Some (save_seen_internships w ticks seen)) = seen.
Proof. cbn. apply list_to_set_elements_L. Qed.

(** ** Properties of the dispatcher *)

Lemma get_subscribers_nonempty w : Forall (fun email => email ≠ []) (get_subscribers w).
Proof.
  apply Forall_forall. intros email Hin.
  unfold get_subscribers in Hin. apply list_elem_of_filter in Hin as [[Hne _] _].
  exact Hne.
Qed.

(** [send_email_notification] never raises: the [except] branch of its
    callers is dead. *)
Lemma send_email_notification_returns w self attempt new_internships to_email subject :
  (send_email_notification w self attempt new_internships to_email subject).1 = Returns ().
Proof.
  unfold send_email_notification. destruct (smtp_ok _ _ _); reflexivity.
Qed.

Lemma send_email_notification_trace w self attempt new_internships to_email subject :
  let tr := (send_email_notification w self attempt new_internships to_email subject).2 in
  attempted tr =
    [ {| msg_from := sender_email self;
         msg_to := str_or to_email (recipient_email self);
         msg_subject := str_or subject (default_subject new_internships);
         msg_body := create_email_body new_internships |} ]
  /\ saves tr = [] /\ reports tr = [].
Proof.
  unfold send_email_notification. destruct (smtp_ok _ _ _); cbn; auto.
Qed.

Lemma attempted_app tr1 tr2 : attempted (tr1 ++ tr2) = attempted tr1 ++ attempted tr2.
Proof. apply omap_app. Qed.

Lemma saves_app tr1 tr2 : saves (tr1 ++ tr2) = saves tr1 ++ saves tr2.
Proof. apply omap_app. Qed.

Lemma reports_app tr1 tr2 : reports (tr1 ++ tr2) = reports tr1 ++ reports tr2.
Proof. apply omap_app. Qed.

(** The loop over the subscribers: one message each, in list order, and a
    counter that is incremented for every subscriber. *)
Lemma notify_loop_spec w self new_internships subject subscribers :
  Forall (fun email => email ≠ []) subscribers ->
  forall attempt sent,
    let res := notify_loop w self new_internships subject subscribers attempt sent in
    res.1 = (sent + length subscribers)%nat
    /\ attempted res.2 =
         (fun to => {| msg_from := sender_email self;
                       msg_to := to;
                       msg_subject := str_or subject (default_subject new_internships);
                       msg_body := create_email_body new_internships |}) <$> subscribers
    /\ saves res.2 = [] /\ reports res.2 = [].
Proof.
  induction 1 as [|email rest Hne _ IH]; intros attempt sent; [cbn; auto with lia|].
  cbn [notify_loop].
  pose proof (send_email_notification_returns w self attempt new_internships
                (Some email) subject) as Hret.
  pose proof (send_email_notification_trace w self attempt new_internships
                (Some email) subject) as (Hat & Hsv & Hrp).
  destruct (send_email_notification w self attempt new_internships (Some email) subject)
    as [r ev]; cbn [fst snd] in *. subst r.
  specialize (IH (S attempt) (S sent)).
  destruct (notify_loop w self new_internships subject rest (S attempt) (S sent))
    as [n tr]; cbn [fst snd] in *.
  destruct IH as (Hn & Hat' & Hsv' & Hrp').
  rewrite attempted_app, saves_app, reports_app, Hat, Hsv, Hrp, Hat', Hsv', Hrp'.
  split; [cbn; lia|]. split; [|auto].
  cbn. destruct email; [congruence|reflexivity].
Qed.

Lemma notify_spec w self new_internships subject :
  let tr := notify w self new_internships subject in
  attempted tr =
    (fun to => {| msg_from := sender_email self;
                  msg_to := to;
                  msg_subject := str_or subject (default_subject new_internships);
                  msg_body := create_email_body new_internships |}) <$> recipients w self
  /\ saves tr = []
  /\ reports tr =
       if bool_decide (get_subscribers w = []) then []
       else [(length (get_subscribers w), length (get_subscribers w))].
Proof.
  unfold notify, recipients. case_bool_decide as Hs.
  - pose proof (send_email_notification_trace w self 0 new_internships None subject)
      as (Hat & Hsv & Hrp).
    cbn zeta in *. rewrite Hat, Hsv, Hrp. auto.
  - pose proof (notify_loop_spec w self new_internships subject (get_subscribers w)
                  (get_subscribers_nonempty w) 0%nat 0%nat) as (Hn & Hat & Hsv & Hrp).
    destruct (notify_loop _ _ _ _ _ _ _) as [n tr]; cbn [fst snd] in *.
    rewrite attempted_app, saves_app, reports_app, Hat, Hsv, Hrp, Hn.
    cbn. rewrite app_nil_r. auto.
Qed.

Lemma create_email_body_nil :
  create_email_body [] = page_head ++ header_html [] ++ page_tail ++ page_footer.
Proof. unfold create_email_body. cbn [foldl]. rewrite <- !app_assoc. reflexivity. Qed.

Lemma message_for_nil self to : message_for self [] to = no_new_message self to.
Proof. unfold message_for, no_new_message. rewrite create_email_body_nil. reflexivity. Qed.

(** C2, at three subscribers of which the second is refused by the SMTP
    server ([four_pages]): two messages are delivered, the failure of the
    second is logged inside [send_email_notification], and the report line
    counts 3 sent of 3. *)
Theorem dispatch_reports_every_subscriber_as_sent self new_internships :
  let tr := notify four_pages self new_internships None in
  get_subscribers four_pages = [alice; bob; carol]
  /\ msg_to <$> attempted tr = [alice; bob; carol]
  /\ msg_to <$> delivered tr = [alice; carol]
  /\ reports tr = [(3, 3)%nat].
Proof. cbv zeta. repeat split; reflexivity. Qed.

(** ** Properties of a run *)

Lemma get_all_loop_trace w fuel :
  forall page ticks acc res ticks' tr,
    get_all_loop w fuel page ticks acc = Some (res, ticks', tr) ->
    attempted tr = [] /\ saves tr = [] /\ reports tr = [].
Proof.
  induction fuel as [|fuel IH]; intros page ticks acc res ticks' tr; [discriminate|].
  cbn [get_all_loop].
  destruct (page_items _) as [items|]; [|intros [= <- <- <-]; auto].
  destruct (process_items w ticks items) as [found ticks1].
  destruct (reached_last _ _); [intros [= <- <- <-]; auto|].
  destruct (get_all_loop w fuel (S page) ticks1 (acc ++ found)) as [[[res' t'] tr']|] eqn:Hr;
    [|discriminate].
  intros [= <- <- <-]. apply IH in Hr. exact Hr.
Qed.

(** The result of the part of a run that follows the fetch. *)
Lemma check_current_eq w self data_file current ticks :
  let new_internships := (find_new current (seen_internships self)).1 in
  let seen := (find_new current (seen_internships self)).2 in
  let f := save_seen_internships w ticks seen in
  check_current w self data_file current ticks =
    {| r_new := new_internships;
       r_seen := seen;
       r_file := if bool_decide (new_internships = []) then data_file else Some f;
       r_trace :=
         if bool_decide (current = []) then []
         else notify w self new_internships
                (if bool_decide (new_internships = []) then Some no_new_subject else None)
              ++ (if bool_decide (new_internships = []) then [] else [EvSave f]) |}.
Proof.
  unfold check_current. case_bool_decide as Hc.
  - subst current. reflexivity.
  - destruct (find_new current (seen_internships self)) as [new_internships seen].
    cbn [fst snd]. case_bool_decide as Hn.
    + subst new_internships. rewrite app_nil_r. reflexivity.
    + reflexivity.
Qed.

Lemma check_for_new_internships_inv w fuel self data_file r :
  check_for_new_internships w fuel self data_file = Some r ->
  exists current ticks tr,
    get_all_internships w fuel 0 = Some (current, ticks, tr)
    /\ r_new r = r_new (check_current w self data_file current ticks)
    /\ r_seen r = r_seen (check_current w self data_file current ticks)
    /\ r_file r = r_file (check_current w self data_file current ticks)
    /\ r_trace r = tr ++ r_trace (check_current w self data_file current ticks).
Proof.
  unfold check_for_new_internships.
  destruct (get_all_internships w fuel 0) as [[[current ticks] tr]|]; [|discriminate].
  intros [= <-]. exists current, ticks, tr. cbn. auto.
Qed.

(** A run over a feed with a first stopping page returns. *)
Lemma check_for_new_internships_returns w k fuel self data_file :
  first_stop w k -> (k <= fuel)%nat ->
  exists current ticks tr r,
    get_all_internships w fuel 0 = Some (current, ticks, tr)
    /\ fetched_pages tr = seq 1 k
    /\ observed_at [] <$> current = concat (page_listings w <$> seq 1 k)
    /\ check_for_new_internships w fuel self data_file = Some r
    /\ r_new r = r_new (check_current w self data_file current ticks)
    /\ r_seen r = r_seen (check_current w self data_file current ticks)
    /\ r_file r = r_file (check_current w self data_file current ticks)
    /\ r_trace r = tr ++ r_trace (check_current w self data_file current ticks).
Proof.
  intros Hfs Hfuel.
  destruct (get_all_internships_returns w k fuel 0 Hfs Hfuel) as
    (current & ticks & tr & Hg & Hf & He).
  unfold check_for_new_internships. rewrite Hg.
  eexists current, ticks, tr, _. repeat split; try reflexivity; assumption.
Qed.

Lemma ids_erased l : ids (observed_at [] <$> l) = ids l.
Proof. unfold ids. rewrite <- list_fmap_compose. reflexivity. Qed.

Lemma erased_nil l : observed_at [] <$> l = [] -> l = [].
Proof. destruct l; [reflexivity|discriminate]. Qed.

(** What the API answers decides the stop conditions and the listings up
    to their observation times. *)
Lemma fetch_internships_from_api_ext w1 w2 page :
  upstream w2 = upstream w1 ->
  fetch_internships_from_api w2 page = fetch_internships_from_api w1 page.
Proof. intros H. unfold fetch_internships_from_api. rewrite H. reflexivity. Qed.

Lemma first_stop_ext w1 w2 k :
  upstream w2 = upstream w1 -> first_stop w1 k -> first_stop w2 k.
Proof.
  intros H.
  assert (Hs : forall p, stop_condition w2 p = stop_condition w1 p).
  { intros p. unfold stop_condition, fetch_failure, yields_no_items, declares_last.
    rewrite (fetch_internships_from_api_ext w1 w2 p H). reflexivity. }
  intros (Hk & Hstop & Hgo). split; [exact Hk|]. split; [by rewrite Hs|].
  eapply Forall_impl; [exact Hgo|]. intros j Hj. by rewrite Hs.
Qed.

Lemma page_listings_ext w1 w2 page :
  upstream w2 = upstream w1 -> page_listings w2 page = page_listings w1 page.
Proof.
  intros H. unfold page_listings.
  rewrite (fetch_internships_from_api_ext w1 w2 page H). reflexivity.
Qed.

(** After a run of a watcher constructed over the data file, the file
    holds the seen-state of the watcher. *)
Lemma check_current_file_seen w self data_file current ticks :
  seen_internships self = load_seen_internships data_file ->
  let r := check_current w self data_file current ticks in
  load_seen_internships (r_file r) = r_seen r.
Proof.
  intros Hload. rewrite check_current_eq. cbn [r_file r_seen].
  case_bool_decide as Hn.
  - rewrite find_new_eq. cbn [snd]. rewrite <- Hload.
    pose proof (proj1 (find_new_nil _ _) Hn) as Hall.
    apply set_eq. intros a. rewrite elem_of_union, elem_of_list_to_set.
    split; [tauto|]. intros [Ha|Ha]; [exact Ha|]. apply Hall, Ha.
  - cbn. apply list_to_set_elements_L.
Qed.

(** The fetch does not depend on the SMTP server. *)
Lemma process_items_with_smtp w ok items :
  forall ticks, process_items (with_smtp w ok) ticks items = process_items w ticks items.
Proof.
  induction items as [|data rest IH]; intros ticks; [reflexivity|].
  cbn [process_items].
  change (process_item (with_smtp w ok) ticks data) with (process_item w ticks data).
  destruct (process_item w ticks data) as [r ticks1]. rewrite IH. reflexivity.
Qed.

Lemma get_all_loop_with_smtp w ok fuel :
  forall page ticks acc,
    get_all_loop (with_smtp w ok) fuel page ticks acc = get_all_loop w fuel page ticks acc.
Proof.
  induction fuel as [|fuel IH]; intros page ticks acc; [reflexivity|].
  cbn [get_all_loop].
  change (fetch_internships_from_api (with_smtp w ok) page)
    with (fetch_internships_from_api w page).
  destruct (page_items _) as [items|]; [|reflexivity].
  rewrite process_items_with_smtp.
  destruct (process_items w ticks items) as [found ticks1].
  rewrite IH. reflexivity.
Qed.

Lemma check_current_with_smtp w ok self data_file current ticks :
  let r := check_current w self data_file current ticks in
  let r' := check_current (with_smtp w ok) self data_file current ticks in
  r_new r' = r_new r /\ r_seen r' = r_seen r /\ r_file r' = r_file r
  /\ saves (r_trace r') = saves (r_trace r).
Proof.
  cbv zeta. rewrite !check_current_eq. cbn [r_new r_seen r_file r_trace].
  repeat split; try reflexivity.
  case_bool_decide; [reflexivity|].
  rewrite !saves_app.
  pose proof (notify_spec w self) as H1. pose proof (notify_spec (with_smtp w ok) self) as H2.
  cbv zeta in H1, H2.
  rewrite (proj1 (proj2 (H1 _ _))), (proj1 (proj2 (H2 _ _))). reflexivity.
Qed.

(** What the part of a run after the fetch does to the data file. *)
Lemma check_current_saves w self data_file current ticks :
  let r := check_current w self data_file current ticks in
  let f := save_seen_internships w ticks (r_seen r) in
  saves (r_trace r) = (if bool_decide (r_new r = []) then [] else [f])
  /\ (exists before,
        r_trace r = before ++ (EvSave <$> saves (r_trace r))
        /\ saves before = [] /\ attempted before = attempted (r_trace r))
  /\ r_file r = (if bool_decide (r_new r = []) then data_file else Some f)
  /\ (current = [] ->
        r_trace r = [] /\ r_new r = [] /\ r_seen r = seen_internships self
        /\ r_file r = data_file).
Proof.
  unfold check_current. case_bool_decide as Hc.
  - cbn. split; [reflexivity|]. split; [exists []; auto|]. auto.
  - destruct (find_new current (seen_internships self)) as [new_internships seen].
    case_bool_decide as Hn; cbn [r_new r_seen r_file r_trace].
    + rewrite bool_decide_eq_true_2 by exact Hn.
      pose proof (notify_spec w self [] (Some no_new_subject)) as (_ & Hs & _).
      rewrite Hs. split; [reflexivity|]. split; [|split; [reflexivity|tauto]].
      eexists. rewrite app_nil_r. split; [reflexivity|]. auto.
    + rewrite bool_decide_eq_false_2 by exact Hn.
      pose proof (notify_spec w self new_internships None) as (_ & Hs & _).
      rewrite saves_app, Hs. cbn [app saves omap list_omap].
      split; [reflexivity|]. split; [|split; [reflexivity|tauto]].
      eexists. split; [reflexivity|]. split; [exact Hs|].
      rewrite attempted_app. cbn. rewrite app_nil_r. reflexivity.
Qed.

(** C3, amended: a run that returns writes the data file at most once; it
    writes it exactly when it found a new listing, as its last action after
    every dispatch, and whatever the SMTP server did to the individual
    messages.  A run that found nothing new leaves the file as it was, and a
    run whose batch is empty ends before the detector, without any
    dispatch. *)
Theorem seen_state_saved_once_when_new w k fuel self data_file :
  first_stop w k -> (k <= fuel)%nat ->
  exists current ticks tr r,
    get_all_internships w fuel 0 = Some (current, ticks, tr)
    /\ check_for_new_internships w fuel self data_file = Some r
    /\ saves (r_trace r) =
         (if bool_decide (r_new r = []) then []
          else [save_seen_internships w ticks (r_seen r)])
    /\ (exists before,
          r_trace r = before ++ (EvSave <$> saves (r_trace r))
          /\ saves before = [] /\ attempted before = attempted (r_trace r))
    /\ r_file r =
         (if bool_decide (r_new r = []) then data_file
          else Some (save_seen_internships w ticks (r_seen r)))
    /\ (forall ok, exists r',
          check_for_new_internships (with_smtp w ok) fuel self data_file = Some r'
          /\ r_file r' = r_file r /\ r_seen r' = r_seen r
          /\ saves (r_trace r') = saves (r_trace r))
    /\ (current = [] ->
          r_trace r = tr /\ r_new r = [] /\ r_seen r = seen_internships self
          /\ r_file r = data_file).
Proof.
  intros Hfs Hfuel.
  destruct (check_for_new_internships_returns w k fuel self data_file Hfs Hfuel) as
    (current & ticks & tr & r & Hg & _ & _ & Hc & Hnew & Hseen & Hfile & Htr).
  destruct (get_all_loop_trace _ _ _ _ _ _ _ _ Hg) as (Hta & Hts & _).
  pose proof (check_current_saves w self data_file current ticks) as
    (Hsv & (before & Hb & Hbs & Hba) & Hf & He).
  cbv zeta in *. rewrite <- Hnew, <- Hseen, <- Hfile in *.
  assert (Hsaves : saves (r_trace r) =
            saves (r_trace (check_current w self data_file current ticks)))
    by (rewrite Htr, saves_app, Hts; reflexivity).
  exists current, ticks, tr, r. split; [exact Hg|]. split; [exact Hc|].
  split; [rewrite Hsaves; exact Hsv|].
  split.
  { exists (tr ++ before). rewrite Hsaves, <- app_assoc, <- Hb.
    split; [exact Htr|]. rewrite saves_app, Hts, Hbs.
    split; [reflexivity|]. rewrite Htr, !attempted_app, Hba. reflexivity. }
  split; [exact Hf|].
  split.
  { intros ok. unfold check_for_new_internships.
    unfold get_all_internships in *. rewrite get_all_loop_with_smtp, Hg. eexists. split; [reflexivity|]. cbn [r_new r_seen r_file r_trace].
    destruct (check_current_with_smtp w ok self data_file current ticks) as
      (_ & Hs' & Hf' & Hsv').
    rewrite Hs', Hf', Hseen, Hfile, !saves_app, Hts, Hsv', Hsaves. auto. }
  intros Hnil. destruct (He Hnil) as (Ht0 & Hn0 & Hs0 & Hf0).
  rewrite Htr, Ht0, app_nil_r. rewrite Hn0, Hs0, Hf0 in *. auto.
Qed.

(** The messages of the part of a run after the fetch. *)
Lemma check_current_attempted w self data_file current ticks :
  let r := check_current w self data_file current ticks in
  attempted (r_trace r) =
    if bool_decide (current = []) then []
    else message_for self (r_new r) <$> recipients w self.
Proof.
  cbv zeta. unfold check_current. case_bool_decide as Hc; [reflexivity|].
  destruct (find_new current (seen_internships self)) as [new_internships seen].
  case_bool_decide as Hn; cbn [r_new r_trace].
  - pose proof (notify_spec w self [] (Some no_new_subject)) as (Ha & _).
    rewrite Ha, Hn. reflexivity.
  - pose proof (notify_spec w self new_internships None) as (Ha & _).
    rewrite attempted_app, Ha. cbn [attempted omap list_omap]. rewrite app_nil_r.
    reflexivity.
Qed.

(** C4, amended: a run that fetched at least one listing and found none of
    them new hands exactly one message per recipient to the SMTP server, the
    fixed "no new listings" message, the recipients being the subscribers
    or, without any, the configured address; a run whose batch is empty
    sends nothing. *)
Theorem no_new_notice_unless_batch_empty w k fuel self data_file :
  first_stop w k -> (k <= fuel)%nat ->
  exists current ticks tr r,
    get_all_internships w fuel 0 = Some (current, ticks, tr)
    /\ check_for_new_internships w fuel self data_file = Some r
    /\ (r_new r = [] ->
         attempted (r_trace r) =
           if bool_decide (current = []) then []
           else no_new_message self <$> recipients w self).
Proof.
  intros Hfs Hfuel.
  destruct (check_for_new_internships_returns w k fuel self data_file Hfs Hfuel) as
    (current & ticks & tr & r & Hg & _ & _ & Hc & Hnew & _ & _ & Htr).
  destruct (get_all_loop_trace _ _ _ _ _ _ _ _ Hg) as (Hta & _ & _).
  exists current, ticks, tr, r. split; [exact Hg|]. split; [exact Hc|].
  intros Hnil. rewrite Htr, attempted_app, Hta, check_current_attempted, <- Hnew, Hnil.
  cbn [app]. destruct (bool_decide (current = [])); [reflexivity|].
  apply list_fmap_ext. intros _ to _. apply message_for_nil.
Qed.

(** C6: on a feed with a first stopping page, a second run against the
    unchanged feed, by a watcher constructed over the data file the first
    run left, finds nothing new and leaves the data file and the seen-state
    as the first run left them. *)
Theorem pipeline_idempotent w1 w2 k fuel1 fuel2 data_file s1 p1 e1 s2 p2 e2 :
  first_stop w1 k -> (k <= fuel1)%nat -> (k <= fuel2)%nat ->
  upstream w2 = upstream w1 ->
  exists r1 r2,
    check_for_new_internships w1 fuel1 (watcher_over data_file s1 p1 e1) data_file = Some r1
    /\ check_for_new_internships w2 fuel2 (watcher_over (r_file r1) s2 p2 e2) (r_file r1)
         = Some r2
    /\ r_new r2 = []
    /\ r_file r2 = r_file r1
    /\ r_seen r2 = r_seen r1.
Proof.
  intros Hfs Hf1 Hf2 Hup.
  destruct (check_for_new_internships_returns w1 k fuel1 (watcher_over data_file s1 p1 e1)
              data_file Hfs Hf1) as
    (c1 & t1 & tr1 & r1 & _ & _ & He1 & Hc1 & _ & Hseen1 & Hfile1 & _).
  destruct (check_for_new_internships_returns w2 k fuel2
              (watcher_over (r_file r1) s2 p2 e2) (r_file r1)
              (first_stop_ext w1 w2 k Hup Hfs) Hf2) as
    (c2 & t2 & tr2 & r2 & _ & _ & He2 & Hc2 & Hnew2 & Hseen2 & Hfile2 & _).
  exists r1, r2. split; [exact Hc1|]. split; [exact Hc2|].
  assert (Hids : ids c2 = ids c1).
  { rewrite <- (ids_erased c2), <- (ids_erased c1), He1, He2.
    do 2 f_equal. apply list_fmap_ext. intros _ p _. apply page_listings_ext, Hup. }
  assert (Hload : load_seen_internships (r_file r1) = r_seen r1).
  { rewrite Hfile1, Hseen1. apply check_current_file_seen. reflexivity. }
  assert (Hsub : forall a, a ∈ ids c2 -> a ∈ load_seen_internships (r_file r1)).
  { intros a Ha. rewrite Hload, Hseen1, check_current_eq. cbn [r_seen].
    rewrite find_new_eq. cbn [snd]. rewrite Hids in Ha.
    apply elem_of_union_r, elem_of_list_to_set, Ha. }
  rewrite check_current_eq in Hnew2, Hseen2, Hfile2.
  cbn [r_new r_seen r_file watcher_over seen_internships] in Hnew2, Hseen2, Hfile2.
  assert (Hn : (find_new c2 (load_seen_internships (r_file r1))).1 = [])
    by (apply find_new_nil, Hsub).
  rewrite Hn in Hnew2, Hfile2.
  split; [exact Hnew2|]. split; [exact Hfile2|].
  rewrite Hseen2, find_new_eq. cbn [snd]. rewrite <- Hload.
  apply set_eq. intros a. rewrite elem_of_union, elem_of_list_to_set.
  split; [|tauto]. intros [Ha|Ha]; [exact Ha|]. apply Hsub, Ha.
Qed.

(** C10, amended: a raw item without [id] that the normalizer keeps gets
    the empty identifier.  The listings one run reports have pairwise
    distinct identifiers, so at most one of them has the empty one; a run of
    a watcher whose seen-state holds the empty identifier reports no such
    listing; and once one was reported, or the data file held the empty
    identifier already, the data file holds it after the run. *)
Theorem idless_listings_share_empty_identifier :
  (forall now data l,
      has_key data (lit "id") = false ->
      process_internship_data now data = Some l -> Listing.id l = [])
  /\ (forall w fuel self data_file r,
        check_for_new_internships w fuel self data_file = Some r ->
        NoDup (ids (r_new r)))
  /\ (forall w fuel self data_file r l,
        check_for_new_internships w fuel self data_file = Some r ->
        [] ∈ seen_internships self -> l ∈ r_new r -> Listing.id l ≠ [])
  /\ (forall w fuel self data_file r,
        check_for_new_internships w fuel self data_file = Some r ->
        seen_internships self = load_seen_internships data_file ->
        (exists l, l ∈ r_new r /\ Listing.id l = []) \/ [] ∈ load_seen_internships data_file ->
        [] ∈ load_seen_internships (r_file r)).
Proof.
  split; [exact process_internship_data_no_id|].
  split; [|split].
  - intros w fuel self data_file r Hr.
    apply check_for_new_internships_inv in Hr as (c & t & tr & _ & Hnew & _).
    rewrite Hnew, check_current_eq. cbn [r_new]. rewrite find_new_eq. cbn [fst].
    apply (sublist_NoDup _ (ids (first_by_id c))); [apply first_by_id_NoDup|].
    apply fmap_sublist, sublist_filter.
  - intros w fuel self data_file r l Hr Hseen Hl Hid.
    apply check_for_new_internships_inv in Hr as (c & t & tr & _ & Hnew & _).
    rewrite Hnew, check_current_eq in Hl. cbn [r_new] in Hl.
    rewrite find_new_eq in Hl. cbn [fst] in Hl.
    apply list_elem_of_filter in Hl as [Hl _]. apply Hl. rewrite Hid. exact Hseen.
  - intros w fuel self data_file r Hr Hload Hcases.
    apply check_for_new_internships_inv in Hr as (c & t & tr & _ & Hnew & Hseen & Hfile & _).
    rewrite Hfile, (check_current_file_seen w self data_file c t Hload).
    rewrite check_current_eq. cbn [r_seen]. rewrite find_new_eq. cbn [snd].
    destruct Hcases as [(l & Hl & Hid)|Hin].
    + rewrite Hnew, check_current_eq in Hl. cbn [r_new] in Hl.
      rewrite find_new_eq in Hl. cbn [fst] in Hl.
      apply list_elem_of_filter in Hl as [_ Hl].
      apply elem_of_union_r, elem_of_list_to_set, first_by_id_ids.
      rewrite <- Hid. unfold ids. apply list_elem_of_fmap. eauto.
    + apply elem_of_union_l. rewrite Hload. exact Hin.
Qed.

(** ** Further properties of the normalizer *)

Lemma lstrip_fixed c r : isspace c = false -> lstrip (c :: r) = c :: r.
Proof. intros H. cbn. rewrite H. reflexivity. Qed.

Lemma lstrip_head s : lstrip s = [] \/ exists c r, lstrip s = c :: r /\ isspace c = false.
Proof.
  induction s as [|c r IH]; [left; reflexivity|].
  cbn. destruct (isspace c) eqn:Hc; [exact IH|]. right. eauto.
Qed.

Lemma lstrip_snoc x c : isspace c = false -> lstrip (x ++ [c]) = lstrip x ++ [c].
Proof.
  intros Hc. induction x as [|d x IH]; cbn; [rewrite Hc; reflexivity|].
  destruct (isspace d); [exact IH|reflexivity].
Qed.

Lemma rstrip_cons c r : isspace c = false -> rstrip (c :: r) = c :: rstrip r.
Proof.
  intros Hc. unfold rstrip. cbn [rev]. rewrite lstrip_snoc by exact Hc.
  rewrite rev_app_distr. reflexivity.
Qed.

Lemma rstrip_rstrip s : rstrip (rstrip s) = rstrip s.
Proof.
  unfold rstrip. rewrite rev_involutive.
  destruct (lstrip_head (rev s)) as [->|(c & r & -> & Hc)]; [reflexivity|].
  rewrite lstrip_fixed by exact Hc. reflexivity.
Qed.

Lemma lstrip_rstrip_head c r : isspace c = false -> lstrip (rstrip (c :: r)) = rstrip (c :: r).
Proof. intros Hc. rewrite rstrip_cons by exact Hc. apply lstrip_fixed, Hc. Qed.

(** Trimming twice is trimming once. *)
Lemma strip_strip s : strip (strip s) = strip s.
Proof.
  unfold strip.
  destruct (lstrip_head s) as [->|(c & r & -> & Hc)]; [reflexivity|].
  rewrite lstrip_rstrip_head by exact Hc. apply rstrip_rstrip.
Qed.

Lemma lstrip_suffix s : exists pre, s = pre ++ lstrip s /\ Forall (fun c => isspace c = true) pre.
Proof.
  induction s as [|c r (pre & Hr & Hpre)]; [exists []; auto|].
  cbn. destruct (isspace c) eqn:Hc.
  - exists (c :: pre). split; [cbn; congruence|]. constructor; assumption.
  - exists []. auto.
Qed.

(** [strip] removes white space at both ends and nothing else. *)
Lemma strip_infix s :
  exists pre post,
    s = pre ++ strip s ++ post
    /\ Forall (fun c => isspace c = true) pre
    /\ Forall (fun c => isspace c = true) post.
Proof.
  destruct (lstrip_suffix s) as (pre & Hs & Hpre).
  destruct (lstrip_suffix (rev (lstrip s))) as (q & Hq & Hpost).
  exists pre, (rev q). split; [|split; [exact Hpre|]].
  - unfold strip, rstrip. rewrite <- rev_app_distr, <- Hq, rev_involutive. exact Hs.
  - apply Forall_forall. intros c Hc. rewrite Forall_forall in Hpost. apply Hpost.
    apply list_elem_of_In, in_rev, list_elem_of_In. exact Hc.
Qed.

Lemma text_of_trimmed v : trimmed (text_of v).
Proof. unfold trimmed. destruct v; try reflexivity. apply strip_strip. Qed.

Lemma process_internship_data_normalized now data l :
  process_internship_data now data = Some l -> l = normalized now data.
Proof.
  rewrite process_internship_data_eq. destruct (_ && _ && _); congruence.
Qed.

Lemma trimmed_clean_ends s : trimmed s -> clean_ends s.
Proof.
  unfold trimmed, strip. intros Hs. split.
  - intros c r ->.
    destruct (lstrip_head (c :: r)) as [He|(c' & r' & He & Hc)]; rewrite He in Hs.
    + discriminate.
    + rewrite rstrip_cons in Hs by exact Hc. congruence.
  - intros c r ->. unfold rstrip in Hs.
    apply (f_equal (@rev N)) in Hs. rewrite rev_involutive, rev_app_distr in Hs.
    cbn [rev app] in Hs.
    destruct (lstrip_head (rev (lstrip (r ++ [c])))) as [He|(c' & r' & He & Hc)];
      rewrite He in Hs; [discriminate|congruence].
Qed.

(** X1: every text field of a listing the normalizer keeps is trimmed:
    title, company, location, work mode, deadline, type and job package
    neither begin nor end with white space, and title and company are not
    empty. *)
Theorem kept_listing_fields_trimmed now data l :
  process_internship_data now data = Some l ->
  (clean_ends (Listing.title l) /\ Listing.title l <> [])
  /\ (clean_ends (Listing.company l) /\ Listing.company l <> [])
  /\ clean_ends (Listing.location l) /\ clean_ends (Listing.work_mode l)
  /\ clean_ends (Listing.deadline l) /\ clean_ends (Listing.type l)
  /\ clean_ends (Listing.job_package l).
Proof.
  intros Hl. pose proof Hl as Hkeep.
  rewrite process_internship_data_eq in Hkeep.
  destruct (well_typed data); [|discriminate].
  unfold nonempty in Hkeep. cbn [andb] in Hkeep.
  destruct (bool_decide (resolved_title data = [])) eqn:Ht; [discriminate|].
  destruct (bool_decide (resolved_company data = [])) eqn:Hc; [discriminate|].
  apply bool_decide_eq_false_1 in Ht, Hc.
  apply process_internship_data_normalized in Hl. subst l. cbn.
  unfold resolved_title, resolved_company in *.
  repeat split; try apply trimmed_clean_ends, text_of_trimmed; assumption.
Qed.

(** X2: the description of a kept listing is the first 500 characters of the
    trimmed raw description: never longer than 500, and the whole trimmed
    description when that has at most 500 characters. *)
Theorem kept_listing_description_capped now data l :
  process_internship_data now data = Some l ->
  Listing.description l = take 500 (text_of (field data (lit "description")))
  /\ (length (Listing.description l) <= 500)%nat
  /\ ((length (text_of (field data (lit "description"))) <= 500)%nat ->
      Listing.description l = text_of (field data (lit "description"))).
Proof.
  intros Hl. apply process_internship_data_normalized in Hl. subst l.
  cbn [normalized Listing.description].
  assert (He : (if bool_decide (text_of (field data (lit "description")) = []) then []
                else take 500 (text_of (field data (lit "description"))))
               = take 500 (text_of (field data (lit "description")))).
  { case_bool_decide as Hd; [rewrite Hd; reflexivity|reflexivity]. }
  rewrite He. split; [reflexivity|]. split.
  - rewrite length_take. lia.
  - intros Hlen. apply take_ge. exact Hlen.
Qed.

(** X3: the link of a kept listing is an address under the site: it starts
    with the base address, equals it when the item has no slug (or an empty
    one), and is the base address, a slash and the slug, unchanged, when the
    slug is a non-empty string. *)
Theorem kept_listing_link_under_site now data l :
  process_internship_data now data = Some l ->
  website_base_url `prefix_of` Listing.link l
  /\ (truthy (field data (lit "slug")) = false -> Listing.link l = website_base_url)
  /\ (forall s, field data (lit "slug") = JStr s -> s <> [] ->
       Listing.link l = website_base_url ++ lit "/" ++ s).
Proof.
  intros Hl. apply process_internship_data_normalized in Hl. subst l.
  cbn [normalized Listing.link]. unfold py_or. split; [|split].
  - destruct (truthy (field data (lit "slug"))) eqn:Hs.
    + rewrite Hs. apply prefix_app_r. reflexivity.
    + cbn. reflexivity.
  - intros Hs. rewrite Hs. reflexivity.
  - intros s Hs Hne. rewrite Hs. destruct s as [|c s]; [congruence|]. reflexivity.
Qed.

Lemma lit_inj s1 s2 : lit s1 = lit s2 -> s1 = s2.
Proof.
  unfold lit. intros H.
  rewrite <- (string_of_list_ascii_of_string s1), <- (string_of_list_ascii_of_string s2).
  f_equal. revert H. generalize (list_ascii_of_string s1) (list_ascii_of_string s2).
  intros l1. induction l1 as [|a l1 IH]; intros [|b l2] H; try discriminate; [reflexivity|].
  cbn in H. injection H as Hab Hl. f_equal; [|apply IH, Hl].
  rewrite <- (ascii_N_embedding a), <- (ascii_N_embedding b), Hab. reflexivity.
Qed.

(** Different integers have different decimal texts. *)
Lemma str_int_inj n m : str_int n = str_int m -> n = m.
Proof.
  unfold str_int. intros H. apply lit_inj in H.
  apply DecimalZ.to_int_inj.
  assert (Hs : Some (Z.to_int n) = Some (Z.to_int m))
    by (rewrite <- !NilEmpty.isi, H; reflexivity).
  congruence.
Qed.

(** X4: two kept listings whose raw items carry different integer ids have
    different identifiers: distinct upstream ids never share an entry of the
    seen-state. *)
Theorem integer_ids_do_not_collide now1 now2 kvs1 kvs2 n m l1 l2 :
  dict_lookup kvs1 (lit "id") = Some (JInt n) ->
  dict_lookup kvs2 (lit "id") = Some (JInt m) ->
  process_internship_data now1 (JDict kvs1) = Some l1 ->
  process_internship_data now2 (JDict kvs2) = Some l2 ->
  n <> m -> Listing.id l1 <> Listing.id l2.
Proof.
  intros H1 H2 Hl1 Hl2 Hne.
  apply process_internship_data_normalized in Hl1, Hl2. subst l1 l2.
  cbn [normalized Listing.id]. unfold dict_get. rewrite H1, H2. cbn [default py_str].
  intros Heq. apply Hne, str_int_inj, Heq.
Qed.

(** X5: the normalizer reads the keys of [read_keys] and no other: two raw
    items that agree on these keys are normalized alike, whatever else they
    hold and in whatever order. *)
Theorem normalizer_reads_only_its_keys now kvs1 kvs2 :
  (forall k, k ∈ read_keys -> dict_lookup kvs1 k = dict_lookup kvs2 k) ->
  process_internship_data now (JDict kvs1) = process_internship_data now (JDict kvs2).
Proof.
  intros Hagree.
  assert (Hk : Forall (fun k => dict_lookup kvs1 k = dict_lookup kvs2 k) read_keys)
    by (apply Forall_forall, Hagree).
  unfold read_keys in Hk.
  repeat match type of Hk with
  | Forall _ (_ :: _) => apply Forall_cons in Hk as [? Hk]
  end.
  clear Hk Hagree.
  rewrite !process_internship_data_eq.
  unfold normalized, well_typed, nonempty.
  unfold resolved_title, resolved_company, name_of, field, dict_get.
  repeat match goal with
  | H : dict_lookup kvs1 _ = dict_lookup kvs2 _ |- _ => rewrite H; clear H
  end.
  reflexivity.
Qed.

(** ** Further properties of the fetch loop *)

(** X6: on a feed with first stopping page [k], the batch is made of the
    listings of the pages 1, ..., k in page order, each page in the order of
    its items, the items the normalizer drops leaving no gap; when the fetch
    of page [k] fails, the batch is what the pages before it yielded. *)
Theorem batch_in_page_order w k fuel ticks :
  first_stop w k -> (k <= fuel)%nat ->
  exists res ticks' tr,
    get_all_internships w fuel ticks = Some (res, ticks', tr)
    /\ observed_at [] <$> res = concat (page_listings w <$> seq 1 k)
    /\ (fetch_internships_from_api w k = JDict [] ->
        observed_at [] <$> res = concat (page_listings w <$> seq 1 (k - 1))).
Proof.
  intros Hfs Hfuel.
  destruct (get_all_internships_returns w k fuel ticks Hfs Hfuel) as
    (res & t & tr & Hr & _ & Hl).
  exists res, t, tr. split; [exact Hr|]. split; [exact Hl|].
  intros Hfail. rewrite Hl. destruct Hfs as (Hk & _ & _).
  replace k with ((k - 1) + 1)%nat at 1 by lia.
  rewrite seq_app, fmap_app, concat_app. cbn [seq fmap list_fmap concat].
  replace (1 + (k - 1))%nat with k by lia.
  unfold page_listings at 2. rewrite Hfail. cbn. rewrite !app_nil_r. reflexivity.
Qed.

Lemma fetched_pages_paced pages : fetched_pages (paced pages) = pages.
Proof.
  induction pages as [|p [|q rest] IH]; [reflexivity|reflexivity|].
  change (paced (p :: q :: rest)) with (EvFetch p :: EvSleep :: paced (q :: rest)).
  unfold fetched_pages in *. cbn [omap list_omap]. rewrite IH. reflexivity.
Qed.

Lemma get_all_loop_paced w fuel :
  forall page ticks acc res ticks' tr,
    get_all_loop w fuel page ticks acc = Some (res, ticks', tr) ->
    exists n, tr = paced (seq page (S n)).
Proof.
  induction fuel as [|fuel IH]; intros page ticks acc res ticks' tr; [discriminate|].
  cbn [get_all_loop].
  destruct (page_items _) as [items|]; [|intros [= <- <- <-]; exists 0%nat; reflexivity].
  destruct (process_items w ticks items) as [found ticks1].
  destruct (reached_last _ _); [intros [= <- <- <-]; exists 0%nat; reflexivity|].
  destruct (get_all_loop w fuel (S page) ticks1 (acc ++ found)) as [[[res' t'] tr']|] eqn:Hr;
    [|discriminate].
  intros [= <- <- <-]. apply IH in Hr as (n & ->). exists (S n). reflexivity.
Qed.

(** X7: the requests of a fetch that returns are paced: the trace is request
    1, pause, request 2, pause, ..., request [k], with exactly one pause
    between two consecutive requests and none after the last. *)
Theorem requests_are_paced w k fuel ticks :
  first_stop w k -> (k <= fuel)%nat ->
  exists res ticks' tr,
    get_all_internships w fuel ticks = Some (res, ticks', tr)
    /\ tr = paced (seq 1 k).
Proof.
  intros Hfs Hfuel.
  destruct (get_all_internships_returns w k fuel ticks Hfs Hfuel) as
    (res & t & tr & Hr & Hf & _).
  exists res, t, tr. split; [exact Hr|].
  destruct (get_all_loop_paced _ _ _ _ _ _ _ _ Hr) as (n & Hn).
  rewrite Hn in Hf. rewrite fetched_pages_paced in Hf. rewrite Hn, Hf. reflexivity.
Qed.

(** X8: every way a fetch can fail (the request raises, the body is no JSON,
    the body is no object or its success flag is absent or false) gives the
    empty payload, and the loop leaves at that page. *)
Theorem failed_fetch_ends_pagination w page :
  upstream w page = RequestError \/ upstream w page = DecodeError
  \/ (exists body, upstream w page = Reply body
                   /\ truthy (field body (lit "success")) = false) ->
  fetch_internships_from_api w page = JDict [] /\ page_stops w page = true.
Proof.
  intros Hcases.
  assert (Hf : fetch_internships_from_api w page = JDict []).
  { unfold fetch_internships_from_api.
    destruct Hcases as [->|[->|(body & -> & Hs)]]; [reflexivity|reflexivity|].
    destruct body as [| | | | |kvs]; try reflexivity.
    cbn [py_get field] in *. rewrite Hs. reflexivity. }
  split; [exact Hf|]. unfold page_stops. rewrite Hf. reflexivity.
Qed.

(** ** Further properties of the store *)


(** X10: [main] raises exactly when one of the three settings is unset or
    empty, before any request, mail or write; otherwise it is the run of the
    watcher constructed over the data file. *)
Theorem main_raises_iff_unconfigured w fuel data_file es ep er :
  (main w fuel data_file es ep er = Some Raises <-> unset es \/ unset ep \/ unset er)
  /\ (forall s p e, es = Some s -> ep = Some p -> er = Some e ->
       s <> [] -> p <> [] -> e <> [] ->
       main w fuel data_file es ep er
       = Returns <$> check_for_new_internships w fuel (watcher_over data_file s p e) data_file).
Proof.
  unfold main, InternshipWatcher_init, unset. split.
  - destruct es as [[|c1 s]|], ep as [[|c2 p]|], er as [[|c3 e]|]; cbn;
      try (split; [intros _; eauto 6|reflexivity]).
    split.
    + destruct (check_for_new_internships _ _ _ _); discriminate.
    + intros [[?|?]|[[?|?]|[?|?]]]; discriminate.
  - intros s p e -> -> -> Hs Hp He. cbn [default].
    rewrite !bool_decide_eq_false_2 by assumption. reflexivity.
Qed.

(** ** Further properties of a run *)

Lemma seen_state_never_shrinks_aux w fuel self data_file r :
  check_for_new_internships w fuel self data_file = Some r ->
  seen_internships self = load_seen_internships data_file ->
  seen_internships self ⊆ r_seen r
  /\ load_seen_internships (r_file r) = r_seen r
  /\ (forall a, a ∈ ids (r_new r) -> a ∈ r_seen r).
Proof.
  intros Hr Hload.
  apply check_for_new_internships_inv in Hr as (c & t & tr & _ & Hnew & Hseen & Hfile & _).
  split; [|split].
  - rewrite Hseen, check_current_eq. cbn [r_seen]. rewrite find_new_eq. cbn [snd].
    apply union_subseteq_l.
  - rewrite Hfile, Hseen. apply check_current_file_seen, Hload.
  - intros a Ha. rewrite Hseen, Hnew, check_current_eq in *. cbn [r_new r_seen] in *.
    rewrite find_new_eq in *. cbn [fst snd] in *.
    apply elem_of_union_r, elem_of_list_to_set, first_by_id_ids.
    unfold ids in *. apply list_elem_of_fmap in Ha as (y & -> & Hy).
    apply list_elem_of_filter in Hy as [_ Hy]. apply list_elem_of_fmap. eauto.
Qed.

(** X11: a run never removes an identifier: the seen-state only grows, and
    for a watcher constructed over the data file the file after the run holds
    exactly the seen-state of the watcher, which includes all the file held
    before. *)
Theorem seen_state_never_shrinks w fuel self data_file r :
  check_for_new_internships w fuel self data_file = Some r ->
  seen_internships self ⊆ r_seen r
  /\ (seen_internships self = load_seen_internships data_file ->
      load_seen_internships (r_file r) = r_seen r
      /\ load_seen_internships data_file ⊆ load_seen_internships (r_file r)).
Proof.
  intros Hr.
  apply check_for_new_internships_inv in Hr as (c & t & tr & _ & _ & Hseen & Hfile & _).
  assert (Hsub : seen_internships self ⊆ r_seen r).
  { rewrite Hseen, check_current_eq. cbn [r_seen]. rewrite find_new_eq. cbn [snd].
    apply union_subseteq_l. }
  split; [exact Hsub|]. intros Hload.
  assert (Heq : load_seen_internships (r_file r) = r_seen r).
  { rewrite Hfile, Hseen. apply check_current_file_seen, Hload. }
  split; [exact Heq|]. rewrite Heq, <- Hload. exact Hsub.
Qed.

(** X12: a listing is reported at most once across runs: whatever a run of
    a watcher constructed over the data file reported or had seen, no later
    run started from the file it left reports again, whether or not the mails
    of the first run were delivered. *)
Theorem listing_reported_at_most_once w1 w2 fuel1 fuel2 self data_file s p e r1 r2 :
  seen_internships self = load_seen_internships data_file ->
  check_for_new_internships w1 fuel1 self data_file = Some r1 ->
  check_for_new_internships w2 fuel2 (watcher_over (r_file r1) s p e) (r_file r1) = Some r2 ->
  forall l, l ∈ r_new r2 ->
    (Listing.id l ∉ ids (r_new r1)) /\ (Listing.id l ∉ seen_internships self).
Proof.
  intros Hload Hr1 Hr2 l Hl.
  destruct (seen_state_never_shrinks_aux w1 fuel1 self data_file r1 Hr1 Hload) as (Hsub & Heq & Hnew).
  apply check_for_new_internships_inv in Hr2 as (c2 & t2 & tr2 & _ & Hnew2 & _).
  rewrite Hnew2, check_current_eq in Hl. cbn [r_new watcher_over seen_internships] in Hl.
  rewrite find_new_eq in Hl. cbn [fst] in Hl.
  apply list_elem_of_filter in Hl as [Hl _]. rewrite Heq in Hl.
  split; intros Hin; apply Hl; [apply Hnew, Hin|apply Hsub, Hin].
Qed.

(** ** Further properties of the dispatcher *)

Lemma notify_failures_app tr1 tr2 :
  notify_failures (tr1 ++ tr2) = notify_failures tr1 ++ notify_failures tr2.
Proof. apply omap_app. Qed.

Lemma notify_failures_paced pages : notify_failures (paced pages) = [].
Proof.
  induction pages as [|p [|q rest] IH]; [reflexivity|reflexivity|].
  change (paced (p :: q :: rest)) with (EvFetch p :: EvSleep :: paced (q :: rest)).
  unfold notify_failures in *. cbn [omap list_omap]. exact IH.
Qed.

Lemma send_email_notification_no_failure w self attempt new_internships to_email subject :
  notify_failures (send_email_notification w self attempt new_internships to_email subject).2
  = [].
Proof. unfold send_email_notification. destruct (smtp_ok _ _ _); reflexivity. Qed.

Lemma notify_loop_no_failure w self new_internships subject subscribers :
  forall attempt sent,
    notify_failures (notify_loop w self new_internships subject subscribers attempt sent).2
    = [].
Proof.
  induction subscribers as [|email rest IH]; intros attempt sent; [reflexivity|].
  cbn [notify_loop].
  pose proof (send_email_notification_returns w self attempt new_internships
                (Some email) subject) as Hret.
  pose proof (send_email_notification_no_failure w self attempt new_internships
                (Some email) subject) as Hnf.
  destruct (send_email_notification w self attempt new_internships (Some email) subject)
    as [r ev]; cbn [fst snd] in *. subst r.
  specialize (IH (S attempt) (S sent)).
  destruct (notify_loop w self new_internships subject rest (S attempt) (S sent))
    as [n tr]; cbn [fst snd] in *.
  rewrite notify_failures_app, Hnf, IH. reflexivity.
Qed.

Lemma notify_no_failure w self new_internships subject :
  notify_failures (notify w self new_internships subject) = [].
Proof.
  unfold notify. case_bool_decide.
  - apply send_email_notification_no_failure.
  - pose proof (notify_loop_no_failure w self new_internships subject
                  (get_subscribers w) 0%nat 0%nat) as Hnf.
    destruct (notify_loop _ _ _ _ _ _ _) as [n tr]; cbn [snd] in Hnf.
    rewrite notify_failures_app, Hnf. reflexivity.
Qed.

Lemma one_message_per_recipient_aux w fuel self data_file r :
  check_for_new_internships w fuel self data_file = Some r ->
  attempted (r_trace r) = []
  \/ attempted (r_trace r) = message_for self (r_new r) <$> recipients w self.
Proof.
  intros Hr.
  apply check_for_new_internships_inv in Hr as (c & t & tr & Hg & Hnew & _ & _ & Htr).
  destruct (get_all_loop_trace _ _ _ _ _ _ _ _ Hg) as (Hta & _ & _).
  rewrite Htr, attempted_app, Hta, check_current_attempted, Hnew.
  destruct (bool_decide (c = [])); auto.
Qed.

(** X13: no run ever logs "Failed to notify": [send_email_notification]
    returns whatever the SMTP server does, so the handler around its call is
    never entered. *)
Theorem notify_failure_is_never_logged w fuel self data_file r :
  check_for_new_internships w fuel self data_file = Some r ->
  notify_failures (r_trace r) = [].
Proof.
  intros Hr.
  apply check_for_new_internships_inv in Hr as (c & t & tr & Hg & _ & _ & _ & Htr).
  destruct (get_all_loop_paced _ _ _ _ _ _ _ _ Hg) as (n & ->).
  rewrite Htr, notify_failures_app, notify_failures_paced, check_current_eq.
  cbn [r_trace app]. case_bool_decide; [reflexivity|].
  rewrite notify_failures_app, notify_no_failure.
  case_bool_decide; reflexivity.
Qed.

(** X14: a refused or failed delivery stops nothing: the messages handed to
    the SMTP server, their recipients and their order, and the listings
    reported are the same whatever the server does to each message. *)
Theorem attempts_do_not_depend_on_smtp w fuel self data_file r :
  check_for_new_internships w fuel self data_file = Some r ->
  forall ok, exists r',
    check_for_new_internships (with_smtp w ok) fuel self data_file = Some r'
    /\ attempted (r_trace r') = attempted (r_trace r)
    /\ r_new r' = r_new r.
Proof.
  intros Hr ok.
  apply check_for_new_internships_inv in Hr as (c & t & tr & Hg & Hnew & _ & _ & Htr).
  destruct (get_all_loop_trace _ _ _ _ _ _ _ _ Hg) as (Hta & _ & _).
  unfold check_for_new_internships, get_all_internships in *.
  rewrite get_all_loop_with_smtp, Hg. eexists. split; [reflexivity|].
  cbn [r_new r_trace].
  destruct (check_current_with_smtp w ok self data_file c t) as (Hn' & _ & _ & _).
  split; [|rewrite Hn', Hnew; reflexivity].
  rewrite Htr, !attempted_app, !check_current_attempted, Hn'. reflexivity.
Qed.

(** X15: a run hands the SMTP server nothing when its batch is empty, and
    otherwise exactly one message per recipient, in list order, all with the
    same sender, subject and body, made from the new listings of the run;
    the recipients are the subscribers or, without any, the configured
    address alone. *)
Theorem one_message_per_recipient w fuel self data_file r :
  check_for_new_internships w fuel self data_file = Some r ->
  exists current ticks tr,
    get_all_internships w fuel 0 = Some (current, ticks, tr)
    /\ attempted (r_trace r) =
         if bool_decide (current = []) then []
         else message_for self (r_new r) <$> recipients w self.
Proof.
  intros Hr.
  apply check_for_new_internships_inv in Hr as (c & t & tr & Hg & Hnew & _ & _ & Htr).
  destruct (get_all_loop_trace _ _ _ _ _ _ _ _ Hg) as (Hta & _ & _).
  exists c, t, tr. split; [exact Hg|].
  rewrite Htr, attempted_app, Hta, check_current_attempted, Hnew. reflexivity.
Qed.

(** X16: the count a run logs after the loop over the subscribers is always
    the number of subscribers out of the number of subscribers; nothing is
    logged when the batch is empty or there is no subscriber. *)
Theorem report_counts_every_subscriber w fuel self data_file r :
  check_for_new_internships w fuel self data_file = Some r ->
  exists current ticks tr,
    get_all_internships w fuel 0 = Some (current, ticks, tr)
    /\ reports (r_trace r) =
         if bool_decide (current = []) || bool_decide (get_subscribers w = []) then []
         else [(length (get_subscribers w), length (get_subscribers w))].
Proof.
  intros Hr.
  apply check_for_new_internships_inv in Hr as (c & t & tr & Hg & _ & _ & _ & Htr).
  destruct (get_all_loop_trace _ _ _ _ _ _ _ _ Hg) as (_ & _ & Htr0).
  exists c, t, tr. split; [exact Hg|].
  rewrite Htr, reports_app, Htr0, check_current_eq. cbn [r_trace app].
  case_bool_decide; [reflexivity|]. cbn [orb].
  rewrite reports_app.
  pose proof (notify_spec w self (find_new c (seen_internships self)).1) as Hn.
  cbv zeta in Hn. rewrite (proj2 (proj2 (Hn _))).
  match goal with
  | |- context [reports (if ?b then [] else [EvSave ?f])] =>
      replace (reports (if b then [] else [EvSave f])) with (@nil (nat * nat))
        by (destruct b; reflexivity)
  end.
  rewrite app_nil_r. reflexivity.
Qed.

(** X17: a watcher that [__init__] returned never writes from or to an empty
    address: every message of its runs has a non-empty sender and goes either
    to the configured recipient or to a cell of the subscriber sheet that
    holds an at sign. *)
Theorem no_message_without_address w fuel data_file es ep er self r :
  InternshipWatcher_init data_file es ep er = Returns self ->
  check_for_new_internships w fuel self data_file = Some r ->
  Forall (fun m => msg_from m <> [] /\ msg_to m <> []
                   /\ (msg_to m = recipient_email self
                       \/ (msg_to m ∈ sheet_emails w /\ (64%N : N) ∈ msg_to m)))
         (attempted (r_trace r)).
Proof.
  intros Hinit Hr.
  assert (Hcfg : sender_email self <> [] /\ recipient_email self <> []).
  { unfold InternshipWatcher_init in Hinit.
    destruct es as [[|c1 s]|], ep as [[|c2 p]|], er as [[|c3 e]|]; cbn in Hinit;
      try discriminate.
    injection Hinit as <-. cbn. split; discriminate. }
  destruct Hcfg as [Hs Hre].
  destruct (one_message_per_recipient_aux w fuel self data_file r Hr) as [->| ->];
    [constructor|].
  apply Forall_fmap, Forall_forall. intros to Hto. cbn.
  split; [exact Hs|].
  unfold recipients in Hto. case_bool_decide as Hsub.
  - apply list_elem_of_singleton in Hto as ->. auto.
  - pose proof Hto as Hin. unfold get_subscribers in Hin.
    apply list_elem_of_filter in Hin as [[Hne Hat] Hin]. auto.
Qed.

(** ** Further properties of the change detector *)

Lemma find_new_app a b seen :
  find_new (a ++ b) seen =
    ((find_new a seen).1 ++ (find_new b (find_new a seen).2).1,
     (find_new b (find_new a seen).2).2).
Proof.
  forget_texts.
  revert seen. induction a as [|x a IH]; intros seen.
  - cbn. destruct (find_new b seen); reflexivity.
  - cbn [app find_new]. case_bool_decide as Hx; [apply IH|].
    rewrite IH. destruct (find_new a ({[Listing.id x]} ∪ seen)) as [n s]. reflexivity.
Qed.

(** X22: detection composes over the pages: detecting on a batch made of
    two parts gives the new listings of the first part followed by those the
    second part has with respect to the seen-state the first part left, and
    the seen-state the second leaves. *)
Theorem detection_composes a b seen :
  (find_new (a ++ b) seen).1
    = (find_new a seen).1 ++ (find_new b (find_new a seen).2).1
  /\ (find_new (a ++ b) seen).2 = (find_new b (find_new a seen).2).2.
Proof. rewrite find_new_app. split; reflexivity. Qed.

(** X23: detection marks what it reports: run again on the same batch with
    the seen-state it left, the detector finds nothing new and leaves that
    seen-state as it is. *)
Theorem detection_twice_finds_nothing current seen :
  (find_new current (find_new current seen).2).1 = []
  /\ (find_new current (find_new current seen).2).2 = (find_new current seen).2.
Proof.
  forget_texts.
  split.
  - apply find_new_nil. intros a Ha. rewrite find_new_eq. cbn [snd].
    apply elem_of_union_r, elem_of_list_to_set, Ha.
  - rewrite !find_new_eq. cbn [snd]. set_solver.
Qed.

(** ** Further properties of the renderer *)

Lemma default_subject_no_new new_internships :
  default_subject new_internships = no_new_subject <-> new_internships = [].
Proof.
  unfold default_subject. split.
  - case_bool_decide as Hn; [intros _; exact Hn|]. unfold no_new_subject. discriminate.
  - intros ->. reflexivity.
Qed.

(** X18: every message of a run carries the new listings of that run: its
    body is the page rendered from them, and its subject is the "no new
    internships" one exactly when the run found nothing new. *)
Theorem subject_tells_the_variant w fuel self data_file r :
  check_for_new_internships w fuel self data_file = Some r ->
  Forall (fun m => (msg_subject m = no_new_subject <-> r_new r = [])
                   /\ msg_body m = create_email_body (r_new r)
                   /\ msg_from m = sender_email self)
         (attempted (r_trace r)).
Proof.
  intros Hr.
  destruct (one_message_per_recipient_aux w fuel self data_file r Hr) as [->| ->];
    [constructor|].
  apply Forall_fmap, Forall_forall. intros to _. cbn.
  split; [apply default_subject_no_new|]. auto.
Qed.

Lemma foldl_app_concat {A} (f : A -> pystr) (l : list A) :
  forall init, foldl (fun acc i => acc ++ f i) init l = init ++ concat (f <$> l).
Proof.
  induction l as [|x l IH]; intros init; cbn; [rewrite app_nil_r; reflexivity|].
  rewrite IH, <- app_assoc. reflexivity.
Qed.

(** The page is the head, the header of the variant, the rest of the
    template, one section per listing in the order of the batch, and the
    footer. *)
Lemma page_has_one_section_per_listing internships :
  create_email_body internships =
    page_head ++ header_html internships ++ page_tail
    ++ concat ((fun i => listing_section (css_class i) i) <$> internships)
    ++ page_footer.
Proof.
  unfold create_email_body. rewrite foldl_app_concat, <- !app_assoc. reflexivity.
Qed.

End Watcher.

(** ** Properties of the subscriber sheet *)

Section SheetProperties.

Variable lower : pystr -> pystr.

Lemma split_no_separator sep s : Forall (fun piece => sep ∉ piece) (split sep s).
Proof.
  induction s as [|c r IH]; cbn.
  - constructor; [apply not_elem_of_nil|constructor].
  - destruct (c =? sep)%N eqn:Hc.
    + constructor; [apply not_elem_of_nil|exact IH].
    + apply N.eqb_neq in Hc.
      destruct (split sep r) as [|piece pieces].
      * constructor; [|constructor]. intros Hin.
        apply list_elem_of_singleton in Hin. congruence.
      * apply Forall_cons in IH as [Hp Hps]. constructor; [|exact Hps].
        intros Hin. apply elem_of_cons in Hin as [Hin|Hin]; [congruence|contradiction].
Qed.

Lemma lines_of_no_linebreak s :
  forall skip_lf,
    Forall (fun line => Forall (fun c => is_linebreak c = false) line) (lines_of skip_lf s).
Proof.
  induction s as [|c r IH]; intros skip_lf; cbn [lines_of]; [constructor|].
  destruct (skip_lf && (c =? 10)%N); [apply IH|].
  destruct (is_linebreak c) eqn:Hc.
  - constructor; [constructor|apply IH].
  - specialize (IH false). destruct (lines_of false r) as [|line lines].
    + repeat constructor. exact Hc.
    + apply Forall_cons in IH as [Hl Hls]. constructor; [|exact Hls].
      constructor; assumption.
Qed.

Lemma strip_elem s c : c ∈ strip s -> c ∈ s.
Proof.
  intros Hc. destruct (strip_infix s) as (pre & post & Hs & _).
  rewrite Hs. apply elem_of_app. right. apply elem_of_app. left. exact Hc.
Qed.

Lemma email_cells_origin text email :
  email ∈ email_cells lower text ->
  exists line piece,
    line ∈ splitlines text /\ piece ∈ split 44 line /\ email = strip piece.
Proof.
  unfold email_cells.
  destruct (splitlines text) as [|header rows]; [intros H; by apply elem_of_nil in H|].
  destruct (index_of _ _) as [idx|]; [|intros H; by apply elem_of_nil in H].
  intros Hin. apply list_elem_of_omap in Hin as (line & Hline & Hcell).
  apply list_elem_of_lookup_2 in Hcell.
  apply list_elem_of_fmap in Hcell as (piece & -> & Hpiece).
  exists line, piece. split; [right; exact Hline|]. auto.
Qed.

(** X19: every address [get_subscribers] returns for a sheet is a cell of
    it that is not empty and holds an at sign; it neither begins nor ends
    with white space and holds no comma and no line break. *)
Theorem subscribers_are_clean_addresses sheet email :
  email ∈ subscribers_of_sheet lower sheet ->
  email <> [] /\ ((64%N : N) ∈ email) /\ clean_ends email
  /\ ((44%N : N) ∉ email) /\ Forall (fun c => is_linebreak c = false) email.
Proof.
  destruct sheet as [text|]; [|intros H; by apply elem_of_nil in H].
  cbn [subscribers_of_sheet]. intros Hin.
  apply list_elem_of_filter in Hin as [[Hne Hat] Hin].
  apply email_cells_origin in Hin as (line & piece & Hline & Hpiece & ->).
  split; [exact Hne|]. split; [exact Hat|].
  split; [apply trimmed_clean_ends, strip_strip|].
  pose proof (split_no_separator 44 line) as Hsep. rewrite Forall_forall in Hsep.
  pose proof (lines_of_no_linebreak text false) as Hlb. rewrite Forall_forall in Hlb.
  split.
  - intros Hc. apply (Hsep piece Hpiece), strip_elem, Hc.
  - apply Forall_forall. intros c Hc.
    assert (Hcl : c ∈ line).
    { apply strip_elem in Hc. clear -Hc Hpiece.
      revert piece Hpiece Hc. induction line as [|d r IH]; cbn; intros piece Hp Hc.
      - apply list_elem_of_singleton in Hp as ->. exact Hc.
      - destruct (d =? 44)%N.
        + apply elem_of_cons in Hp as [->|Hp]; [by apply elem_of_nil in Hc|].
          right. eapply IH; eassumption.
        + destruct (split 44 r) as [|p ps] eqn:Hs.
          * apply list_elem_of_singleton in Hp as ->.
            apply list_elem_of_singleton in Hc as ->. left.
          * apply elem_of_cons in Hp as [->|Hp].
            -- apply elem_of_cons in Hc as [->|Hc]; [left|].
               right. apply (IH p); [left|exact Hc].
            -- right. apply (IH piece); [right; exact Hp|exact Hc]. }
    specialize (Hlb line Hline). rewrite Forall_forall in Hlb. apply Hlb, Hcl.
Qed.

Lemma index_of_None x l : x ∉ l -> index_of x l = None.
Proof.
  induction l as [|y r IH]; [reflexivity|]. intros Hx. cbn.
  rewrite bool_decide_eq_false_2 by (intros ->; apply Hx; left).
  rewrite IH by (intros Hin; apply Hx; right; exact Hin). reflexivity.
Qed.

(** X20: a sheet whose first line has no cell that reads "email" once
    trimmed and put in lower case gives no subscriber, whatever its rows
    hold. *)
Theorem sheet_without_email_column text header rows :
  splitlines text = header :: rows ->
  lit "email" ∉ sheet_headers lower header ->
  subscribers_of_sheet lower (Some text) = [].
Proof.
  intros Hlines Hno. cbn [subscribers_of_sheet]. unfold email_cells.
  rewrite Hlines, (index_of_None _ _ Hno). reflexivity.
Qed.


(** The watcher of a world whose sheet cells are those of a text has the
    subscribers of that text. *)
Lemma get_subscribers_of_sheet w text :
  sheet_emails w = email_cells lower text ->
  get_subscribers w = subscribers_of_sheet lower (Some text).
Proof. intros H. unfold get_subscribers. rewrite H. reflexivity. Qed.

End SheetProperties.

(** ** The properties on the sample worlds *)

Example detector_on_1_2_3 :
  find_new [listed 1; listed 2; listed 3] (list_to_set [lit "1"; lit "2"])
  = ([listed 3], list_to_set [lit "1"; lit "2"; lit "3"]).
Proof. vm_compute. reflexivity. Qed.

(** Pages 1 and 2 go on, page 3 declares itself last, page 4 exists: the
    pages fetched are 1, 2, 3. *)
Lemma pagination_stops_at_declared_last_page :
  exists res ticks' tr,
    get_all_internships plain_repr four_pages 5 0 = Some (res, ticks', tr)
    /\ fetched_pages tr = seq 1 3.
Proof.
  apply (pagination_stops_at_first_stop plain_repr four_pages 3 5 0).
  - unfold first_stop. split; [lia|]. split; [reflexivity|]. repeat constructor.
  - lia.
Defined.

(** Two runs over the one-page feed, the second at a later time, without
    subscribers and with a failing SMTP server. *)
Lemma second_run_over_one_page_finds_nothing :
  exists r1 r2,
    check_for_new_internships plain_repr plain_head plain_tail plain_footer plain_section
      one_page 1 (watcher_over None (lit "bot@example.org") (lit "secret") alice) None
      = Some r1
    /\ check_for_new_internships plain_repr plain_head plain_tail plain_footer plain_section
         one_page_later 2
         (watcher_over (r_file r1) (lit "bot@example.org") (lit "secret") bob) (r_file r1)
         = Some r2
    /\ r_new r2 = []
    /\ r_file r2 = r_file r1
    /\ r_seen r2 = r_seen r1.
Proof.
  apply (pipeline_idempotent plain_repr plain_head plain_tail plain_footer plain_section
           one_page one_page_later 1 1 2).
  - unfold first_stop. split; [lia|]. split; [reflexivity|]. constructor.
  - lia.
  - lia.
  - reflexivity.
Defined.

(** A run over the three-page feed from an empty data file, one subscriber
    being refused by the SMTP server. *)
Lemma first_run_over_four_pages_saves_once :
  exists current ticks tr r,
    get_all_internships plain_repr four_pages 3 0 = Some (current, ticks, tr)
    /\ check_for_new_internships plain_repr plain_head plain_tail plain_footer plain_section
         four_pages 3 (operator None) None = Some r
    /\ saves (r_trace r) =
         (if bool_decide (r_new r = []) then []
          else [save_seen_internships four_pages ticks (r_seen r)])
    /\ (exists before,
          r_trace r = before ++ (EvSave <$> saves (r_trace r))
          /\ saves before = [] /\ attempted before = attempted (r_trace r))
    /\ r_file r =
         (if bool_decide (r_new r = []) then None
          else Some (save_seen_internships four_pages ticks (r_seen r)))
    /\ (forall ok, exists r',
          check_for_new_internships plain_repr plain_head plain_tail plain_footer
            plain_section (with_smtp four_pages ok) 3 (operator None) None = Some r'
          /\ r_file r' = r_file r /\ r_seen r' = r_seen r
          /\ saves (r_trace r') = saves (r_trace r))
    /\ (current = [] ->
          r_trace r = tr /\ r_new r = [] /\ r_seen r = seen_internships (operator None)
          /\ r_file r = None).
Proof.
  apply (seen_state_saved_once_when_new plain_repr plain_head plain_tail plain_footer
           plain_section four_pages 3 3 (operator None) None).
  - unfold first_stop. split; [lia|]. split; [reflexivity|]. repeat constructor.
  - lia.
Defined.

(** A run over the one-page feed whose three listings are all seen. *)
Lemma run_over_seen_listings_sends_notice :
  exists current ticks tr r,
    get_all_internships plain_repr one_page 1 0 = Some (current, ticks, tr)
    /\ check_for_new_internships plain_repr plain_head plain_tail plain_footer plain_section
         one_page 1 (operator (Some seen_123)) (Some seen_123) = Some r
    /\ (r_new r = [] ->
         attempted (r_trace r) =
           if bool_decide (current = []) then []
           else no_new_message plain_head plain_tail plain_footer (operator (Some seen_123))
                  <$> recipients one_page (operator (Some seen_123))).
Proof.
  apply (no_new_notice_unless_batch_empty plain_repr plain_head plain_tail plain_footer
           plain_section one_page 1 1 (operator (Some seen_123)) (Some seen_123)).
  - unfold first_stop. split; [lia|]. split; [reflexivity|]. constructor.
  - lia.
Defined.

(** The listing without [id] is kept with the empty identifier. *)
Lemma no_id_gets_empty_identifier :
  Listing.id (normalized plain_repr (stamp 0) no_id) = [].
Proof.
  apply (proj1 (idless_listings_share_empty_identifier plain_repr plain_head plain_tail
                  plain_footer plain_section) (stamp 0) no_id).
  - reflexivity.
  - reflexivity.
Defined.

(** ** Where the stated properties fail *)

(** C1 as stated: the item with the amount 5000 and the type "Free" is kept
    and its stipend display is the literal "Free", not the amount with the
    currency prefix. *)
Lemma free_label_replaces_amount :
  field free_with_amount (lit "stipend") = JInt 5000
  /\ Listing.stipend <$> process_internship_data plain_repr (stamp 0) free_with_amount
     = Some (lit "Free")
  /\ lit "Free" <> currency_prefix ++ lit "5000".
Proof. split; [reflexivity|]. split; [reflexivity|]. discriminate. Qed.

(** C3 as stated: the run over the one-page feed whose listings are all seen
    finds nothing new and never writes the data file. *)
Lemma run_without_new_listing_saves_nothing :
  (fun r => (r_new r, saves (r_trace r)))
    <$> check_for_new_internships plain_repr plain_head plain_tail plain_footer plain_section
          one_page 1 (operator (Some seen_123)) (Some seen_123)
  = Some ([], []).
Proof. vm_compute. reflexivity. Qed.

(** C4 as stated: with the API down the set of new listings is empty, there
    is a subscriber, and no message is handed to the SMTP server. *)
Lemma run_with_api_down_sends_nothing :
  get_subscribers api_down = [alice]
  /\ (fun r => (r_new r, attempted (r_trace r)))
       <$> check_for_new_internships plain_repr plain_head plain_tail plain_footer
             plain_section api_down 1 (operator None) None
     = Some ([], []).
Proof. split; vm_compute; reflexivity. Qed.

(** C5 as stated: two evaluations on one raw item at different clock
    readings return different listings. *)
Lemma normalizer_depends_on_clock :
  process_internship_data plain_repr (stamp 0) (raw 1 "A")
  <> process_internship_data plain_repr (stamp 1) (raw 1 "A").
Proof. vm_compute. discriminate. Qed.

(** C8 as stated: on a batch of two listings with one unseen identifier the
    detector returns the first only, the filter on the loaded seen-state
    both. *)
Lemma detector_drops_repeated_identifier :
  (find_new [twin "A"; twin "B"] ∅).1 = [twin "A"]
  /\ filter (fun l => Listing.id l ∉ (∅ : gset pystr)) [twin "A"; twin "B"]
     = [twin "A"; twin "B"].
Proof. split; vm_compute; reflexivity. Qed.

(** C9 as stated: title and company are non-empty after trimming, and the
    item is dropped because its [duration] is a number. *)
Lemma numeric_duration_is_dropped :
  resolved_title numeric_duration = lit "Backend Intern"
  /\ resolved_company numeric_duration = lit "Acme"
  /\ process_internship_data plain_repr (stamp 0) numeric_duration = None.
Proof. repeat split; vm_compute; reflexivity. Qed.

(** C10 as stated: an item without [id], with title and company, that is not
    normalized to any listing. *)
Lemma idless_numeric_duration_is_dropped :
  has_key numeric_duration_no_id (lit "id") = false
  /\ resolved_title numeric_duration_no_id = lit "Backend Intern"
  /\ resolved_company numeric_duration_no_id = lit "Acme"
  /\ process_internship_data plain_repr (stamp 0) numeric_duration_no_id = None.
Proof. repeat split; vm_compute; reflexivity. Qed.

(** ** The further properties on sample items *)

Lemma padded_fields_are_trimmed :
  let l := normalized plain_repr (stamp 0) padded in
  (clean_ends (Listing.title l) /\ Listing.title l <> [])
  /\ (clean_ends (Listing.company l) /\ Listing.company l <> [])
  /\ clean_ends (Listing.location l) /\ clean_ends (Listing.work_mode l)
  /\ clean_ends (Listing.deadline l) /\ clean_ends (Listing.type l)
  /\ clean_ends (Listing.job_package l).
Proof.
  apply (kept_listing_fields_trimmed plain_repr (stamp 0) padded). reflexivity.
Defined.

Lemma padded_description_is_capped :
  let l := normalized plain_repr (stamp 0) padded in
  Listing.description l = take 500 (text_of (field padded (lit "description")))
  /\ (length (Listing.description l) <= 500)%nat
  /\ ((length (text_of (field padded (lit "description"))) <= 500)%nat ->
      Listing.description l = text_of (field padded (lit "description"))).
Proof.
  apply (kept_listing_description_capped plain_repr (stamp 0) padded). reflexivity.
Defined.

Lemma padded_link_is_under_site :
  let l := normalized plain_repr (stamp 0) padded in
  website_base_url `prefix_of` Listing.link l
  /\ (truthy (field padded (lit "slug")) = false -> Listing.link l = website_base_url)
  /\ (forall s, field padded (lit "slug") = JStr s -> s <> [] ->
       Listing.link l = website_base_url ++ lit "/" ++ s).
Proof.
  apply (kept_listing_link_under_site plain_repr (stamp 0) padded). reflexivity.
Defined.

Lemma ids_12_and_13_do_not_collide :
  Listing.id (normalized plain_repr (stamp 0) padded)
  <> Listing.id (normalized plain_repr (stamp 1) (JDict thirteen_fields)).
Proof.
  apply (integer_ids_do_not_collide plain_repr (stamp 0) (stamp 1)
           padded_fields thirteen_fields 12 13); try reflexivity. lia.
Defined.

Lemma padded_reordered_is_normalized_alike :
  process_internship_data plain_repr (stamp 0) padded
  = process_internship_data plain_repr (stamp 0) padded_reordered.
Proof.
  apply (normalizer_reads_only_its_keys plain_repr (stamp 0) padded_fields reordered_fields).
  intros k Hk. unfold read_keys in Hk.
  repeat (apply elem_of_cons in Hk as [->|Hk]; [reflexivity|]).
  apply elem_of_nil in Hk. destruct Hk.
Defined.

(** ** The further properties on the sample worlds *)

Lemma four_pages_batch_in_page_order :
  exists res ticks' tr,
    get_all_internships plain_repr four_pages 3 0 = Some (res, ticks', tr)
    /\ observed_at [] <$> res = concat (page_listings plain_repr four_pages <$> seq 1 3)
    /\ (fetch_internships_from_api four_pages 3 = JDict [] ->
        observed_at [] <$> res
        = concat (page_listings plain_repr four_pages <$> seq 1 (3 - 1))).
Proof.
  apply (batch_in_page_order plain_repr four_pages 3 3 0).
  - unfold first_stop. split; [lia|]. split; [reflexivity|]. repeat constructor.
  - lia.
Defined.

Lemma four_pages_requests_are_paced :
  exists res ticks' tr,
    get_all_internships plain_repr four_pages 3 0 = Some (res, ticks', tr)
    /\ tr = paced (seq 1 3).
Proof.
  apply (requests_are_paced plain_repr four_pages 3 3 0).
  - unfold first_stop. split; [lia|]. split; [reflexivity|]. repeat constructor.
  - lia.
Defined.

Lemma api_down_ends_pagination :
  fetch_internships_from_api api_down 1 = JDict []
  /\ page_stops api_down 1 = true.
Proof.
  apply (failed_fetch_ends_pagination api_down 1). left. reflexivity.
Defined.

Lemma four_pages_seen_state_grows :
  exists r,
    check_for_new_internships plain_repr plain_head plain_tail plain_footer plain_section
      four_pages 3 (operator None) None = Some r
    /\ seen_internships (operator None) ⊆ r_seen r
    /\ (seen_internships (operator None) = load_seen_internships None ->
        load_seen_internships (r_file r) = r_seen r
        /\ load_seen_internships None ⊆ load_seen_internships (r_file r)).
Proof.
  eexists. split; [vm_compute; reflexivity|].
  apply (seen_state_never_shrinks plain_repr plain_head plain_tail plain_footer
           plain_section four_pages 3 (operator None) None).
  vm_compute. reflexivity.
Defined.

Lemma one_page_listings_are_reported_once :
  exists r1 r2,
    check_for_new_internships plain_repr plain_head plain_tail plain_footer plain_section
      one_page 1 (operator None) None = Some r1
    /\ check_for_new_internships plain_repr plain_head plain_tail plain_footer plain_section
         one_page_later 1 (watcher_over (r_file r1) alice bob carol) (r_file r1) = Some r2
    /\ forall l, l ∈ r_new r2 ->
         (Listing.id l ∉ ids (r_new r1))
         /\ (Listing.id l ∉ seen_internships (operator None)).
Proof.
  eexists _, _. split; [vm_compute; reflexivity|]. split; [vm_compute; reflexivity|].
  apply (listing_reported_at_most_once plain_repr plain_head plain_tail plain_footer
           plain_section one_page one_page_later 1 1 (operator None) None alice bob carol).
  - reflexivity.
  - vm_compute. reflexivity.
  - vm_compute. reflexivity.
Defined.

Lemma four_pages_logs_no_notify_failure :
  exists r,
    check_for_new_internships plain_repr plain_head plain_tail plain_footer plain_section
      four_pages 3 (operator None) None = Some r
    /\ notify_failures (r_trace r) = [].
Proof.
  eexists. split; [vm_compute; reflexivity|].
  apply (notify_failure_is_never_logged plain_repr plain_head plain_tail plain_footer
           plain_section four_pages 3 (operator None) None).
  vm_compute. reflexivity.
Defined.

Lemma four_pages_attempts_whatever_smtp_does :
  exists r,
    check_for_new_internships plain_repr plain_head plain_tail plain_footer plain_section
      four_pages 3 (operator None) None = Some r
    /\ forall ok, exists r',
         check_for_new_internships plain_repr plain_head plain_tail plain_footer
           plain_section (with_smtp four_pages ok) 3 (operator None) None = Some r'
         /\ attempted (r_trace r') = attempted (r_trace r)
         /\ r_new r' = r_new r.
Proof.
  eexists. split; [vm_compute; reflexivity|].
  apply (attempts_do_not_depend_on_smtp plain_repr plain_head plain_tail plain_footer
           plain_section four_pages 3 (operator None) None).
  vm_compute. reflexivity.
Defined.

Lemma four_pages_one_message_per_recipient :
  exists r,
    check_for_new_internships plain_repr plain_head plain_tail plain_footer plain_section
      four_pages 3 (operator None) None = Some r
    /\ exists current ticks tr,
         get_all_internships plain_repr four_pages 3 0 = Some (current, ticks, tr)
         /\ attempted (r_trace r) =
              if bool_decide (current = []) then []
              else message_for plain_head plain_tail plain_footer plain_section
                     (operator None) (r_new r) <$> recipients four_pages (operator None).
Proof.
  eexists. split; [vm_compute; reflexivity|].
  apply (one_message_per_recipient plain_repr plain_head plain_tail plain_footer
           plain_section four_pages 3 (operator None) None).
  vm_compute. reflexivity.
Defined.

Lemma four_pages_report_counts_three_of_three :
  exists r,
    check_for_new_internships plain_repr plain_head plain_tail plain_footer plain_section
      four_pages 3 (operator None) None = Some r
    /\ exists current ticks tr,
         get_all_internships plain_repr four_pages 3 0 = Some (current, ticks, tr)
         /\ reports (r_trace r) =
              if bool_decide (current = []) || bool_decide (get_subscribers four_pages = [])
              then []
              else [(length (get_subscribers four_pages), length (get_subscribers four_pages))].
Proof.
  eexists. split; [vm_compute; reflexivity|].
  apply (report_counts_every_subscriber plain_repr plain_head plain_tail plain_footer
           plain_section four_pages 3 (operator None) None).
  vm_compute. reflexivity.
Defined.

Lemma four_pages_messages_have_addresses :
  exists self r,
    InternshipWatcher_init None (Some (lit "bot@example.org")) (Some (lit "secret"))
      (Some (lit "admin@example.org")) = Returns self
    /\ check_for_new_internships plain_repr plain_head plain_tail plain_footer plain_section
         four_pages 3 self None = Some r
    /\ Forall (fun m => msg_from m <> [] /\ msg_to m <> []
                        /\ (msg_to m = recipient_email self
                            \/ (msg_to m ∈ sheet_emails four_pages
                                /\ (64%N : N) ∈ msg_to m)))
              (attempted (r_trace r)).
Proof.
  eexists _, _. split; [reflexivity|]. split; [vm_compute; reflexivity|].
  apply (no_message_without_address plain_repr plain_head plain_tail plain_footer
           plain_section four_pages 3 None (Some (lit "bot@example.org"))
           (Some (lit "secret")) (Some (lit "admin@example.org"))).
  - reflexivity.
  - vm_compute. reflexivity.
Defined.

Lemma four_pages_subject_tells_the_variant :
  exists r,
    check_for_new_internships plain_repr plain_head plain_tail plain_footer plain_section
      four_pages 3 (operator None) None = Some r
    /\ Forall (fun m => (msg_subject m = no_new_subject <-> r_new r = [])
                        /\ msg_body m
                           = create_email_body plain_head plain_tail plain_footer
                               plain_section (r_new r)
                        /\ msg_from m = sender_email (operator None))
              (attempted (r_trace r)).
Proof.
  eexists. split; [vm_compute; reflexivity|].
  apply (subject_tells_the_variant plain_repr plain_head plain_tail plain_footer
           plain_section four_pages 3 (operator None) None).
  vm_compute. reflexivity.
Defined.

Lemma alice_of_the_sample_sheet_is_clean :
  alice <> [] /\ ((64%N : N) ∈ alice) /\ clean_ends alice
  /\ ((44%N : N) ∉ alice) /\ Forall (fun c => is_linebreak c = false) alice.
Proof.
  apply (subscribers_are_clean_addresses ascii_lower (Some sample_sheet) alice).
  vm_compute. left.
Defined.

Lemma nameless_sheet_gives_no_subscriber :
  subscribers_of_sheet ascii_lower (Some nameless_sheet) = [].
Proof.
  apply (sheet_without_email_column ascii_lower nameless_sheet
           (lit "name,mail") [lit "Alice,alice@example.org"]).
  - reflexivity.
  - intros Hin. vm_compute in Hin.
    repeat (apply elem_of_cons in Hin as [Hin|Hin]; [discriminate Hin|]).
    apply elem_of_nil in Hin. exact Hin.
Defined.
